(** * service: the boxrc backend, the execution-context detector and the
      process invoker, embedded from the Go sources

    Go values are modelled as the code has them: [int] as [Z], [string] as
    [string] (a sequence of bytes), a result pair [(T, error)] as
    [T * option error] with [None] for [nil].  A function that can panic
    returns a [Run]; lifecycle methods live in the monad [M], which threads
    the file system and the log of effects. *)

From Stdlib Require Import ZArith String Ascii List Bool Lia DecimalString.
From stdpp Require Import gmap strings.
Import ListNotations.

Local Open Scope string_scope.
Local Open Scope Z_scope.

(** ** Bytes that a literal cannot spell *)

Definition dq : string := String "034"%char EmptyString.
Definition nl : string := String "010"%char EmptyString.

(** ** The Go [strings] functions the sources call *)

Definition len (s : string) : Z := Z.of_nat (String.length s).

(** [strings.HasPrefix(s, prefix)] *)
Fixpoint HasPrefix (s prefix : string) {struct prefix} : bool :=
  match prefix, s with
  | EmptyString, _ => true
  | String _ _, EmptyString => false
  | String a prefix', String b s' => Ascii.eqb a b && HasPrefix s' prefix'
  end.

(** [s[k:]] for [0 <= k]; the bounds are checked by [slice] below *)
Fixpoint drop_bytes (k : nat) (s : string) : string :=
  match k, s with
  | O, _ => s
  | S _, EmptyString => EmptyString
  | S k', String _ s' => drop_bytes k' s'
  end.

(** [s[:k]] *)
Fixpoint take_bytes (k : nat) (s : string) : string :=
  match k, s with
  | O, _ => EmptyString
  | S _, EmptyString => EmptyString
  | S k', String c s' => String c (take_bytes k' s')
  end.

(** [strings.HasSuffix(s, suffix)]:
    [len(s) >= len(suffix) && s[len(s)-len(suffix):] == suffix] *)
Definition HasSuffix (s suffix : string) : bool :=
  (len suffix <=? len s) &&
  String.eqb (drop_bytes (String.length s - String.length suffix) s) suffix.

(** [strings.IndexRune(s, c)] for a one-byte rune: the index of its first
    occurrence, [-1] when there is none *)
Fixpoint IndexRune (s : string) (c : ascii) : Z :=
  match s with
  | EmptyString => -1
  | String b s' =>
      if Ascii.eqb b c then 0
      else let i := IndexRune s' c in if i <? 0 then -1 else i + 1
  end.

(** [strings.Contains(s, substr)] *)
Fixpoint Contains (s substr : string) : bool :=
  HasPrefix s substr ||
  match s with
  | EmptyString => false
  | String _ s' => Contains s' substr
  end.

(** [strings.Replace(s, old, new, -1)] where [old] is one byte, as at both
    call sites *)
Fixpoint ReplaceAll (s : string) (old : ascii) (new : string) : string :=
  match s with
  | EmptyString => EmptyString
  | String b s' =>
      (if Ascii.eqb b old then new else String b EmptyString) +:+ ReplaceAll s' old new
  end.

(** ** Panics *)

Inductive Run (A : Type) : Type :=
| Returns (a : A)
| Panics (msg : string).
Arguments Returns {A} a.
Arguments Panics {A} msg.

(** The slice expression [s[lo:hi]]: Go panics unless [0 <= lo <= hi <= len(s)]. *)
Definition slice (s : string) (lo hi : Z) : Run string :=
  if (0 <=? lo) && (lo <=? hi) && (hi <=? len s)
  then Returns (take_bytes (Z.to_nat (hi - lo)) (drop_bytes (Z.to_nat lo) s))
  else Panics "slice bounds out of range".

(** ** Errors *)

Inductive Errno := ENOENT | EEXIST | EISDIR | ENOTDIR | ELOOP | EACCES | EIO.

(** How a child process ended ([syscall.WaitStatus]). *)
Inductive WaitStatus :=
| Exited (code : Z)
| Signaled (sig : Z).

(** [WaitStatus.ExitStatus()]: [-1] unless the process exited. *)
Definition ExitStatus (ws : WaitStatus) : Z :=
  match ws with
  | Exited code => code
  | Signaled _ => -1
  end.

Inductive error :=
| ErrNotInstalled                                   (* the sentinel of the package *)
| ErrTooLong                                        (* bufio.ErrTooLong *)
| PathError (op path : string) (errno : Errno)      (* *os.PathError *)
| LinkError (op old new : string) (errno : Errno)   (* *os.LinkError *)
| ExecError (name : string) (errno : Errno)         (* cmd.Start: *exec.Error and the like *)
| ExitError (ws : WaitStatus)                       (* *exec.ExitError *)
| IOError (msg : string)                            (* any other error of the runtime *)
| ErrFailed (command : string) (cause : error)      (* fmt.Errorf("%q failed: %v", command, err) *)
| ErrFailedStderr (command stderr : string)         (* fmt.Errorf("%q failed with stderr: %s", ...) *)
| ErrInitExists (confPath : string)                 (* fmt.Errorf("Init already exists: %s", confPath) *)
| UserError (msg : string).                         (* what the caller's callbacks return *)

(** ** Files as the detector reads them *)

(** What opening and reading a path gives: the open fails, or the bytes are
    read and the reader then ends with EOF ([None]) or with an error. *)
Inductive File :=
| NoFile (e : error)
| Bytes (data : string) (fault : option error).

(** [os.ReadFile] *)
Definition ReadFile (f : File) : string * option error :=
  match f with
  | NoFile e => (EmptyString, Some e)
  | Bytes data None => (data, None)
  | Bytes data (Some e) => (data, Some e)
  end.

(** The host as the detector sees it. *)
Record Host := {
  files : string -> File;
  Getppid : Z;
}.

(** ** [bufio.Scanner] with the default [ScanLines] split *)

Definition MaxScanTokenSize : Z := 64 * 1024.

(** The input cut at every newline; the last element is what follows the
    last newline (possibly empty). *)
Fixpoint cut_lines (s : string) : list string :=
  match s with
  | EmptyString => [EmptyString]
  | String c s' =>
      if Ascii.eqb c "010"%char then EmptyString :: cut_lines s'
      else match cut_lines s' with
           | l :: ls => String c l :: ls
           | [] => [String c EmptyString]
           end
  end.

(** [dropCR]: a line loses one trailing carriage return. *)
Fixpoint dropCR (l : string) : string :=
  match l with
  | EmptyString => EmptyString
  | String c EmptyString => if Ascii.eqb c "013"%char then EmptyString else l
  | String c l' => String c (dropCR l')
  end.

(** A scanner is the tokens it has yet to deliver, each with the value
    [Err()] has once it is delivered, and the value [Err()] has once [Scan]
    has returned false. *)
Record Scanner := {
  pending : list (string * option error);
  final : option error;
}.

(** A line that does not fit the buffer ends the scan with [ErrTooLong]; a
    last line with no newline is delivered, when it is not empty, after the
    reader has reported its end. *)
Fixpoint tokens (fault : option error) (raw : list string) : Scanner :=
  match raw with
  | [] => {| pending := []; final := fault |}
  | [tl] =>
      if MaxScanTokenSize <=? len tl then {| pending := []; final := Some ErrTooLong |}
      else if String.eqb tl EmptyString then {| pending := []; final := fault |}
      else {| pending := [(dropCR tl, fault)]; final := fault |}
  | l :: rest =>
      if MaxScanTokenSize <=? len l then {| pending := []; final := Some ErrTooLong |}
      else let sc := tokens fault rest in
           {| pending := (dropCR l, None) :: pending sc; final := final sc |}
  end.

Definition NewScanner (data : string) (fault : option error) : Scanner :=
  tokens fault (cut_lines data).

(** ** service_linux.go *)

Definition cgroupFile : string := "/proc/1/cgroup".

Definition maxlines : Z := 5.

(** The loop [for scan.Scan() && !(lines > maxlines)] of [isInContainer] and
    the [scan.Err()] check after it. *)
Fixpoint scanLoop (toks : list (string * option error)) (final : option error)
    (lines : Z) : bool * option error :=
  match toks with
  | [] => (false, final)
  | (text, err) :: rest =>
      if maxlines <? lines then (false, err)
      else if Contains text "docker" || Contains text "lxc" then (true, None)
      else scanLoop rest final (lines + 1)
  end.

Definition isInContainer (cgroup : File) : bool * option error :=
  match cgroup with
  | NoFile e => (false, Some e)
  | Bytes data fault =>
      let scan := NewScanner data fault in
      scanLoop (pending scan) (final scan) 0
  end.

(** [fmt.Sprintf("/proc/%d/stat", pid)] *)
Definition statPath (pid : Z) : string :=
  "/proc/" +:+ NilZero.string_of_int (Z.to_int pid) +:+ "/stat".

Definition binaryName (h : Host) (pid : Z) : Run (string * option error) :=
  match ReadFile (files h (statPath pid)) with
  | (_, Some err) => Returns (EmptyString, Some err)
  | (data, None) =>
      let binStart := IndexRune data "("%char + 1 in
      match slice data binStart (len data) with
      | Panics msg => Panics msg
      | Returns tail =>
          let binEnd := IndexRune tail ")"%char in
          match slice data binStart (binStart + binEnd) with
          | Panics msg => Panics msg
          | Returns name => Returns (name, None)
          end
      end
  end.

Definition isInteractive (h : Host) : Run bool :=
  let '(inContainer, err) := isInContainer (files h cgroupFile) in
  if match err with None => inContainer | Some _ => false end then Returns true
  else
    let ppid := Getppid h in
    if ppid =? 1 then Returns false
    else
      match binaryName h ppid with
      | Panics msg => Panics msg
      | Returns (binary, _) => Returns (negb (String.eqb binary "systemd"))
      end.

(** [tf]: the helpers the templates may call. *)
Definition tf_cmd (s : string) : string :=
  dq +:+ ReplaceAll s "034"%char ("\" +:+ dq) +:+ dq.

Definition tf_cmdEscape (s : string) : string :=
  ReplaceAll s " "%char "\x20".

(** ** The world the lifecycle methods act on *)

Inductive Node :=
| RegularFile (data : string) (mode : Z)
| SymlinkTo (target : string)
| Directory.

Inductive Signal := SIGHUP | SIGINT | SIGQUIT | SIGTERM | SIGUSR1.

(** What running a command gives: [cmd.Start()] fails, or [cmd.Wait()]
    returns with its error and the two captured streams. *)
Inductive ProcResult :=
| StartFails (e : error)
| Waited (err : option error) (stdout stderr : string).

(** The effects a method has on the outside, in the order they happen. *)
Inductive Event :=
| EvStat (name : string)
| EvCreate (name : string)
| EvWrite (name data : string)
| EvClose (name : string)
| EvChmod (name : string) (mode : Z)
| EvSymlink (oldname newname : string)
| EvRemove (name : string)
| EvCommand (command : string) (arguments : list string)
| EvSleep (d : Z)
| EvInterfaceStart
| EvInterfaceStop
| EvNotify (sigs : list Signal)
| EvReceive (sig : Signal).

(** The mutable part: the file system (a node per path), the log of effects
    and the signals that reach the process while it waits on a channel, in
    their order. *)
Record World := {
  fs : gmap string Node;
  log : list Event;
  signals : list Signal;
}.

(** The value a template is executed on, the struct [to] of [Install]: the
    fields of the Config, the resolved executable path and the log
    directory. *)
Record TemplateData := {
  to_Name : string;
  to_DisplayName : string;
  to_Description : string;
  to_Arguments : list string;
  to_WorkingDirectory : string;
  to_Path : string;
  to_LogDirectory : string;
}.

(** The fixed part: what the outside answers.  [process] is the outcome of
    running a command after the given history; [execPath] is what the
    Config's execPath method (declared outside these sources) returns;
    [parses] and [execute] are the template engine on an operator-supplied
    script; [umask] is the file mode creation mask. *)
Record Env := {
  process : list Event -> string -> list string -> ProcResult;
  env_execPath : string * option error;
  parses : string -> bool;
  execute : string -> TemplateData -> string * option error;
  umask : Z;
}.

(** How a call ends: it returns, it parks for ever, it panics, or the
    process is ended by a signal while the call is parked. *)
Inductive Outcome (A : Type) : Type :=
| Done (a : A)
| Blocked
| Panic (msg : string)
| Killed (sig : Signal).
Arguments Done {A} a.
Arguments Blocked {A}.
Arguments Panic {A} msg.
Arguments Killed {A} sig.

Definition M (A : Type) : Type := Env -> World -> Outcome A * World.

Definition ret {A} (a : A) : M A := fun _ w => (Done a, w).

Definition bind {A B} (m : M A) (k : A -> M B) : M B :=
  fun env w =>
    match m env w with
    | (Done a, w') => k a env w'
    | (Blocked, w') => (Blocked, w')
    | (Panic msg, w') => (Panic msg, w')
    | (Killed sig, w') => (Killed sig, w')
    end.

Declare Scope M_scope.
Delimit Scope M_scope with M.
Notation "x <- y ;; z" := (bind y (fun x => z))
  (at level 20, y at level 99, z at level 200, only parsing) : M_scope.
Notation "' pat <- y ;; z" := (bind y (fun x => match x with pat => z end))
  (at level 20, pat pattern, y at level 99, z at level 200, only parsing) : M_scope.
Notation "y ;; z" := (bind y (fun _ => z))
  (at level 100, z at level 200, only parsing, right associativity) : M_scope.
Local Open Scope M_scope.

Definition ask : M Env := fun env w => (Done env, w).
Definition get : M World := fun _ w => (Done w, w).
Definition emit (e : Event) : M unit :=
  fun _ w => (Done tt, {| fs := fs w; log := log w ++ [e]; signals := signals w |}).
Definition put_fs (m : gmap string Node) : M unit :=
  fun _ w => (Done tt, {| fs := m; log := log w; signals := signals w |}).
Definition put_signals (l : list Signal) : M unit :=
  fun _ w => (Done tt, {| fs := fs w; log := log w; signals := l |}).
Definition panic {A} (msg : string) : M A := fun _ w => (Panic msg, w).
Definition block {A} : M A := fun _ w => (Blocked, w).
Definition kill {A} (sig : Signal) : M A := fun _ w => (Killed sig, w).

(** [defer d] in a function whose remaining body is [body]: [d] runs when the
    body returns or panics, and does not when the process is ended. *)
Definition defer {A} (d : M unit) (body : M A) : M A :=
  fun env w =>
    match body env w with
    | (Done a, w') => (Done a, snd (d env w'))
    | (Panic msg, w') => (Panic msg, snd (d env w'))
    | (Blocked, w') => (Blocked, w')
    | (Killed sig, w') => (Killed sig, w')
    end.

(** Modelled from the spec: the Config of the service and its Option bag,
    both declared outside these sources.  The bag holds named, typed
    overrides; a lookup gives the override when it is present with the type
    asked for and the default otherwise, so each key is a field that is
    [None] when the lookup falls back to the default. *)
Record KeyValue := {
  optionUserService : option bool;
  optionRCSScript : option string;
  optionLogDirectory : option string;
  optionRunWait : option (M unit);
}.

Record Config := {
  Name : string;
  DisplayName : string;
  Description : string;
  Arguments : list string;
  WorkingDirectory : string;
  Option : KeyValue;
}.

Definition KeyValue_bool (v : option bool) (defaultValue : bool) : bool :=
  match v with Some b => b | None => defaultValue end.

Definition KeyValue_string (v : option string) (defaultValue : string) : string :=
  match v with Some x => x | None => defaultValue end.

Definition KeyValue_funcSingle (v : option (M unit)) (defaultValue : M unit) : M unit :=
  match v with Some f => f | None => defaultValue end.

(** ** The [os] calls of the backend *)

Module os.

Definition Interrupt : Signal := SIGINT.

Definition MAXSYMLINKS : nat := 40.

(** Path resolution: follow symbolic links from [p], at most [n] of them;
    the result is the path reached and the node there, if any. *)
Fixpoint follow (n : nat) (m : gmap string Node) (p : string)
    : option (string * option Node) :=
  match m !! p with
  | Some (SymlinkTo target) =>
      match n with
      | O => None
      | S n' => follow n' m target
      end
  | o => Some (p, o)
  end.

Definition Stat (name : string) : M (option error) :=
  emit (EvStat name) ;;
  w <- get ;;
  match follow MAXSYMLINKS (fs w) name with
  | Some (_, Some _) => ret None
  | Some (_, None) => ret (Some (PathError "stat" name ENOENT))
  | None => ret (Some (PathError "stat" name ELOOP))
  end.

(** The directory a path lies in: the path up to its last slash. *)
Fixpoint before_last_slash (p : string) : option string :=
  match p with
  | EmptyString => None
  | String c rest =>
      match before_last_slash rest with
      | Some d => Some (String c d)
      | None => if Ascii.eqb c "/" then Some EmptyString else None
      end
  end.

Definition dirname (p : string) : string :=
  match before_last_slash p with
  | Some EmptyString => "/"
  | Some d => d
  | None => "."
  end.

(** What keeps a new entry from being made at [p]: the directory it lies in
    has to resolve to a directory.  The root and the working directory are
    there on every machine. *)
Definition parent (m : gmap string Node) (p : string) : option Errno :=
  let d := dirname p in
  if String.eqb d "/" || String.eqb d "." then None
  else match follow MAXSYMLINKS m d with
       | Some (_, Some Directory) => None
       | Some (_, Some _) => Some ENOTDIR
       | Some (_, None) => Some ENOENT
       | None => Some ELOOP
       end.

(** [os.Create]: open for writing, create with mode 0666 before umask,
    truncate.  The file handle is the path the name resolves to. *)
Definition Create (name : string) : M (string * option error) :=
  emit (EvCreate name) ;;
  w <- get ;;
  env <- ask ;;
  match follow MAXSYMLINKS (fs w) name with
  | Some (q, None) =>
      match parent (fs w) q with
      | None =>
          put_fs (<[q := RegularFile EmptyString (Z.land (6 * 64 + 6 * 8 + 6) (Z.lnot (umask env)))]> (fs w)) ;;
          ret (q, None)
      | Some errno => ret (EmptyString, Some (PathError "open" name errno))
      end
  | Some (q, Some (RegularFile _ mode)) =>
      put_fs (<[q := RegularFile EmptyString mode]> (fs w)) ;;
      ret (q, None)
  | Some (_, Some Directory) => ret (EmptyString, Some (PathError "open" name EISDIR))
  | Some (_, Some (SymlinkTo _)) | None => ret (EmptyString, Some (PathError "open" name ELOOP))
  end.

(** Writing to an open file appends at its end. *)
Definition WriteString (f data : string) : M unit :=
  emit (EvWrite f data) ;;
  w <- get ;;
  match fs w !! f with
  | Some (RegularFile old mode) => put_fs (<[f := RegularFile (old +:+ data) mode]> (fs w))
  | _ => ret tt
  end.

Definition Close (f : string) : M unit := emit (EvClose f).

Definition Chmod (name : string) (mode : Z) : M (option error) :=
  emit (EvChmod name mode) ;;
  w <- get ;;
  match follow MAXSYMLINKS (fs w) name with
  | Some (q, Some (RegularFile data _)) =>
      put_fs (<[q := RegularFile data mode]> (fs w)) ;; ret None
  | Some (_, Some _) => ret None
  | Some (_, None) => ret (Some (PathError "chmod" name ENOENT))
  | None => ret (Some (PathError "chmod" name ELOOP))
  end.

Definition Symlink (oldname newname : string) : M (option error) :=
  emit (EvSymlink oldname newname) ;;
  w <- get ;;
  match fs w !! newname with
  | Some _ => ret (Some (LinkError "symlink" oldname newname EEXIST))
  | None =>
      match parent (fs w) newname with
      | None => put_fs (<[newname := SymlinkTo oldname]> (fs w)) ;; ret None
      | Some errno => ret (Some (LinkError "symlink" oldname newname errno))
      end
  end.

Definition Remove (name : string) : M (option error) :=
  emit (EvRemove name) ;;
  w <- get ;;
  match fs w !! name with
  | Some _ => put_fs (delete name (fs w)) ;; ret None
  | None => ret (Some (PathError "remove" name ENOENT))
  end.

End os.

Module signal.

(** [signal.Notify(c, sigs...)] on a fresh channel: the channel is known by
    the signals it relays. *)
Definition Notify (sigs : list Signal) : M (list Signal) :=
  emit (EvNotify sigs) ;; ret sigs.

Definition relayed (c : list Signal) (s : Signal) : bool :=
  existsb (fun r => match r, s with
                    | SIGHUP, SIGHUP | SIGINT, SIGINT | SIGQUIT, SIGQUIT
                    | SIGTERM, SIGTERM | SIGUSR1, SIGUSR1 => true
                    | _, _ => false
                    end) c.

(** What the Go runtime does with a signal that no channel is registered
    for (package os/signal, default behaviour): SIGHUP, SIGINT and SIGTERM
    make the program exit, SIGQUIT makes it exit with a stack dump, the
    other signals are caught and no action is taken. *)
Definition exits (s : Signal) : bool :=
  match s with
  | SIGHUP | SIGINT | SIGTERM | SIGQUIT => true
  | SIGUSR1 => false
  end.

(** What a parked receive meets among the signals to come: the first signal
    the channel relays, or before it a signal that ends the program, or
    neither. *)
Inductive Arrival :=
| Relayed (s : Signal) (rest : list Signal)
| Ended (s : Signal) (rest : list Signal)
| Never.

Fixpoint next (c : list Signal) (incoming : list Signal) : Arrival :=
  match incoming with
  | [] => Never
  | s :: rest =>
      if relayed c s then Relayed s rest
      else if exits s then Ended s rest
      else next c rest
  end.

(** [<-c]: park until a relayed signal arrives. *)
Definition receive (c : list Signal) : M Signal :=
  w <- get ;;
  match next c (signals w) with
  | Relayed s rest => put_signals rest ;; emit (EvReceive s) ;; ret s
  | Ended s rest => put_signals rest ;; kill s
  | Never => block
  end.

End signal.

Module time.

Definition Millisecond : Z := 1000000.

Definition Sleep (d : Z) : M unit := emit (EvSleep d).

End time.

(** ** The process invoker *)

Module exec.

(** [exec.Command(command, arguments...)], then [Start] and [Wait]. *)
Definition Command (command : string) (arguments : list string) : M ProcResult :=
  w <- get ;;
  env <- ask ;;
  emit (EvCommand command arguments) ;;
  ret (process env (log w) command arguments).

End exec.

Definition isExitError (err : error) : Z * bool :=
  match err with
  | ExitError ws => (ExitStatus ws, true)
  | _ => (0, false)
  end.

Definition runCommand (command : string) (readStdout : bool) (arguments : list string)
    : M (Z * string * option error) :=
  r <- exec.Command command arguments ;;
  match r with
  | StartFails err => ret (0, EmptyString, Some (ErrFailed command err))
  | Waited werr stdout errOut =>
      let out := if readStdout then stdout else EmptyString in
      match werr with
      | Some err =>
          let '(exitStatus, ok) := isExitError err in
          if ok then ret (exitStatus, out, Some err)
          else ret (0, out, Some (ErrFailed command err))
      | None =>
          if String.eqb command "launchctl"
             && ((0 <? len errOut)
                 && negb (HasSuffix errOut ("Operation now in progress" +:+ nl)))
          then ret (0, EmptyString, Some (ErrFailedStderr command errOut))
          else ret (0, out, None)
      end
  end.

Definition run (command : string) (arguments : list string) : M (option error) :=
  '(_, _, err) <- runCommand command false arguments ;;
  ret err.

Definition runWithOutput (command : string) (arguments : list string)
    : M (Z * string * option error) :=
  runCommand command true arguments.

Definition defaultLogDirectory : string := "/var/log".

(** ** The boxrc backend *)

Inductive Status := StatusUnknown | StatusRunning | StatusStopped.

(** The caller's callbacks: each sees the history and answers with its
    error. *)
Module Interface.

Record t := {
  Start : list Event -> option error;
  Stop : list Event -> option error;
}.

End Interface.

(** The lines of the template [boxrcScript] executed on [to]: every action
    is replaced by its value, the text around it is kept as it is. *)
Definition boxrcScript_lines (to : TemplateData) : list string :=
  [
    "#!/bin/sh";
    EmptyString;
    "cmd=" +:+ dq +:+ to_Path to +:+ String.concat EmptyString (map (fun a => " " +:+ tf_cmd a) (to_Arguments to)) +:+ dq;
    EmptyString;
    "name=" +:+ to_Name to;
    "pid_file=" +:+ dq +:+ "/var/run/$name.pid" +:+ dq;
    "stdout_log=" +:+ dq +:+ to_LogDirectory to +:+ "/$name.log" +:+ dq;
    "stderr_log=" +:+ dq +:+ to_LogDirectory to +:+ "/$name.err" +:+ dq;
    EmptyString;
    "get_pid() {";
    "    cat " +:+ dq +:+ "$pid_file" +:+ dq;
    "}";
    EmptyString;
    "is_running() {";
    "    [ -f " +:+ dq +:+ "$pid_file" +:+ dq +:+ " ] && cat /proc/$(get_pid)/stat > /dev/null 2>&1";
    "}";
    EmptyString;
    "case " +:+ dq +:+ "$1" +:+ dq +:+ " in";
    "    start)";
    "        if is_running; then";
    "            echo " +:+ dq +:+ "Already started" +:+ dq;
    "        else";
    "            echo " +:+ dq +:+ "Starting $name" +:+ dq;
    "            " +:+ (if String.eqb (to_WorkingDirectory to) EmptyString then EmptyString
                        else "cd '" +:+ to_WorkingDirectory to +:+ "'");
    "            $cmd >> " +:+ dq +:+ "$stdout_log" +:+ dq +:+ " 2>> " +:+ dq +:+ "$stderr_log" +:+ dq +:+ " &";
    "            echo $! > " +:+ dq +:+ "$pid_file" +:+ dq;
    "            if ! is_running; then";
    "                echo " +:+ dq +:+ "Unable to start, see $stdout_log and $stderr_log" +:+ dq;
    "                exit 1";
    "            fi";
    "        fi";
    "    ;;";
    "    stop)";
    "        if is_running; then";
    "            echo -n " +:+ dq +:+ "Stopping $name.." +:+ dq;
    "            kill $(get_pid)";
    "            for i in $(seq 1 10)";
    "            do";
    "                if ! is_running; then";
    "                    break";
    "                fi";
    "                echo -n " +:+ dq +:+ "." +:+ dq;
    "                sleep 1";
    "            done";
    "            echo";
    "            if is_running; then";
    "                echo " +:+ dq +:+ "Not stopped; may still be shutting down or shutdown may have failed" +:+ dq;
    "                exit 1";
    "            else";
    "                echo " +:+ dq +:+ "Stopped" +:+ dq;
    "                if [ -f " +:+ dq +:+ "$pid_file" +:+ dq +:+ " ]; then";
    "                    rm " +:+ dq +:+ "$pid_file" +:+ dq;
    "                fi";
    "            fi";
    "        else";
    "            echo " +:+ dq +:+ "Not running" +:+ dq;
    "        fi";
    "    ;;";
    "    restart)";
    "        $0 stop";
    "        if is_running; then";
    "            echo " +:+ dq +:+ "Unable to stop, will not attempt to start" +:+ dq;
    "            exit 1";
    "        fi";
    "        $0 start";
    "    ;;";
    "    status)";
    "        if is_running; then";
    "            echo " +:+ dq +:+ "Running" +:+ dq;
    "        else";
    "            echo " +:+ dq +:+ "Stopped" +:+ dq;
    "            exit 0";
    "        fi";
    "    ;;";
    "    *)";
    "    echo " +:+ dq +:+ "Usage: $0 {start|stop|restart|status}" +:+ dq;
    "    exit 1";
    "    ;;";
    "esac"
  ].

Definition boxrcScript (to : TemplateData) : string :=
  String.concat EmptyString (map (fun l => l +:+ nl) (boxrcScript_lines to)).

Inductive Template :=
| Builtin
| Custom (script : string).

Module boxrc.

Record t := {
  i : Interface.t;
  platform : string;
  config : Config;
}.

Definition Platform (s : t) : string := platform s.

Definition configPath (s : t) : string :=
  "/etc/boxinit.d/65" +:+ Name (config s).

(** [template.Must] panics when the operator's script does not parse. *)
Definition template (s : t) : M Template :=
  let customScript := KeyValue_string (optionRCSScript (Option (config s))) EmptyString in
  if negb (String.eqb customScript EmptyString) then
    env <- ask ;;
    if parses env customScript then ret (Custom customScript)
    else panic "template: parse error"
  else ret Builtin.

(** [Execute(f, to)] *)
Definition Execute (tpl : Template) (f : string) (to : TemplateData) : M (option error) :=
  match tpl with
  | Builtin => os.WriteString f (boxrcScript to) ;; ret None
  | Custom script =>
      env <- ask ;;
      let '(text, err) := execute env script to in
      os.WriteString f text ;; ret err
  end.

Definition execPath (s : t) : M (string * option error) :=
  env <- ask ;; ret (env_execPath env).

Definition Install (s : t) : M (option error) :=
  let confPath := configPath s in
  err <- os.Stat confPath ;;
  match err with
  | None => ret (Some (ErrInitExists confPath))
  | Some _ =>
  '(f, err) <- os.Create confPath ;;
  match err with
  | Some e => ret (Some e)
  | None =>
  defer (os.Close f) (
  '(path, err) <- execPath s ;;
  match err with
  | Some e => ret (Some e)
  | None =>
  let to := {| to_Name := Name (config s);
               to_DisplayName := DisplayName (config s);
               to_Description := Description (config s);
               to_Arguments := Arguments (config s);
               to_WorkingDirectory := WorkingDirectory (config s);
               to_Path := path;
               to_LogDirectory :=
                 KeyValue_string (optionLogDirectory (Option (config s))) defaultLogDirectory |} in
  tpl <- template s ;;
  err <- Execute tpl f to ;;
  match err with
  | Some e => ret (Some e)
  | None =>
  err <- os.Chmod confPath (7 * 64 + 5 * 8 + 5) ;;
  match err with
  | Some e => ret (Some e)
  | None =>
  err <- os.Symlink confPath ("/etc/boxrc.d/65" +:+ Name (config s)) ;;
  match err with
  | Some e => ret (Some e)
  | None => ret None
  end end end end) end end.

Definition Uninstall (s : t) : M (option error) :=
  err <- os.Remove (configPath s) ;;
  match err with
  | Some e => ret (Some e)
  | None =>
      err <- os.Remove ("/etc/boxrc.d/65" +:+ Name (config s)) ;;
      match err with
      | Some e => ret (Some e)
      | None => ret None
      end
  end.

(** [s.i.Start(s)] and [s.i.Stop(s)] *)
Definition call (e : Event) (callback : list Event -> option error) : M (option error) :=
  w <- get ;;
  emit e ;;
  ret (callback (log w)).

Definition Run (s : t) : M (option error) :=
  err <- call EvInterfaceStart (Interface.Start (i s)) ;;
  match err with
  | Some e => ret (Some e)
  | None =>
      KeyValue_funcSingle (optionRunWait (Option (config s)))
        (sigChan <- signal.Notify [SIGTERM; os.Interrupt] ;;
         _ <- signal.receive sigChan ;;
         ret tt) ;;
      call EvInterfaceStop (Interface.Stop (i s))
  end.

Definition Status (s : t) : M (Status * option error) :=
  '(_, out, err) <- runWithOutput (configPath s) ["status"] ;;
  match err with
  | Some e => ret (StatusUnknown, Some e)
  | None =>
      if HasPrefix out "Running" then ret (StatusRunning, None)
      else if HasPrefix out "Stopped" then ret (StatusStopped, None)
      else ret (StatusUnknown, Some ErrNotInstalled)
  end.

Definition Start (s : t) : M (option error) :=
  run (configPath s) ["start"].

Definition Stop (s : t) : M (option error) :=
  run (configPath s) ["stop"].

Definition Restart (s : t) : M (option error) :=
  err <- Stop s ;;
  match err with
  | Some e => ret (Some e)
  | None =>
      time.Sleep (50 * time.Millisecond) ;;
      Start s
  end.

End boxrc.

(** ** How a POSIX shell reads the generated script

    The part of the Shell Command Language the [cmd] line and its use need:
    quoting (2.2), the cutting of a line into words at unquoted blanks
    (2.3), a simple command with its leading assignments (2.9.1) and the
    splitting into fields of an unquoted parameter expansion (2.6.5).
    Operators, expansions inside the line and pathname expansion are left
    out: the lines read here contain none of their characters. *)

Module sh.

Inductive Quoting :=
| Unquoted
| UnquotedEscape     (* after a backslash outside quotes *)
| InDouble
| InDoubleEscape     (* after a backslash inside double quotes *)
| InSingle.

Definition is_blank (c : ascii) : bool :=
  Ascii.eqb c " "%char || Ascii.eqb c "009"%char.

Definition push (cur : option string) (c : ascii) : option string :=
  Some (match cur with Some w => w | None => EmptyString end +:+ String c EmptyString).

Definition opened (cur : option string) : option string :=
  Some (match cur with Some w => w | None => EmptyString end).

Definition close (cur : option string) : list string :=
  match cur with Some w => [w] | None => [] end.

(** The words of a line after quote removal; [cur] is the word being read. *)
Fixpoint words_from (q : Quoting) (cur : option string) (line : string) : list string :=
  match line with
  | EmptyString => close cur
  | String c rest =>
      match q with
      | Unquoted =>
          if is_blank c then close cur ++ words_from Unquoted None rest
          else if Ascii.eqb c "\"%char then words_from UnquotedEscape cur rest
          else if Ascii.eqb c "034"%char then words_from InDouble (opened cur) rest
          else if Ascii.eqb c "'"%char then words_from InSingle (opened cur) rest
          else words_from Unquoted (push cur c) rest
      | UnquotedEscape => words_from Unquoted (push cur c) rest
      | InDouble =>
          if Ascii.eqb c "034"%char then words_from Unquoted cur rest
          else if Ascii.eqb c "\"%char then words_from InDoubleEscape cur rest
          else words_from InDouble (push cur c) rest
      | InDoubleEscape =>
          if Ascii.eqb c "$"%char || Ascii.eqb c "`"%char
             || Ascii.eqb c "034"%char || Ascii.eqb c "\"%char
          then words_from InDouble (push cur c) rest
          else words_from InDouble (push (push cur "\"%char) c) rest
      | InSingle =>
          if Ascii.eqb c "'"%char then words_from Unquoted cur rest
          else words_from InSingle (push cur c) rest
      end
  end.

Definition words (line : string) : list string := words_from Unquoted None line.

(** A line that is one word [name=value] assigns the variable; with more
    words, of which the second is the name of a command, the assignment
    only goes to the environment of that command and the shell's own
    variable stays unset.  (A second word that is an assignment too, or the
    name of a special built-in, is outside what the statements below read:
    see [ordinary_command].) *)
Definition assigned (name line : string) : option string :=
  match words line with
  | [w] =>
      if HasPrefix w (name +:+ "=")
      then Some (drop_bytes (String.length name + 1) w)
      else None
  | _ => None
  end.








Definition is_ifs (c : ascii) : bool :=
  is_blank c || Ascii.eqb c "010"%char.

(** Field splitting of an unquoted expansion: cut at blanks and newlines,
    no quote is read in the value. *)
Fixpoint fields_from (cur : option string) (value : string) : list string :=
  match value with
  | EmptyString => close cur
  | String c rest =>
      if is_ifs c then close cur ++ fields_from None rest
      else fields_from (push cur c) rest
  end.

Definition fields (value : string) : list string := fields_from None value.

(** What [$cmd] expands to in the [start) branch, after the script's
    [cmd=] line was read: the command name and its arguments. *)
Definition expand_cmd (cmd_line : string) : list string :=
  match assigned "cmd" cmd_line with
  | Some value => fields value
  | None => []
  end.

End sh.

(** [$cmd] as the generated script expands it for a service. *)
Definition script_argv (to : TemplateData) : list string :=
  sh.expand_cmd (nth 2 (boxrcScript_lines to) EmptyString).

(** ** The detection predicate of the backend *)

(** [os.Open]: open for reading; the handle is the path the name resolves
    to.  Opening for reading and reading change nothing outside and leave
    no event. *)
Definition os_Open (name : string) : M (string * option error) :=
  w <- get ;;
  match os.follow os.MAXSYMLINKS (fs w) name with
  | Some (q, Some _) => ret (q, None)
  | Some (_, None) => ret (EmptyString, Some (PathError "open" name ENOENT))
  | None => ret (EmptyString, Some (PathError "open" name ELOOP))
  end.

(** [buf.ReadFrom(f)] followed by [buf.String()]: the bytes of a regular
    file, nothing of a directory; [isBoxRC] drops the error of the read. *)
Definition Buffer_ReadFrom (f : string) : M string :=
  w <- get ;;
  match fs w !! f with
  | Some (RegularFile data _) => ret data
  | _ => ret EmptyString
  end.

(** The text before the first newline. *)
Fixpoint line_head (s : string) : string :=
  match s with
  | EmptyString => EmptyString
  | String c s' => if Ascii.eqb c "010"%char then EmptyString else String c (line_head s')
  end.

(** The regular expression of [isBoxRC], two colons, sysinit, a colon, any
    bytes but a newline, boxrc, a dot, d: whether [FindStringSubmatch]
    finds a match, tried from every place of the contents. *)
Fixpoint sysinit_matches (contents : string) : bool :=
  (HasPrefix contents "::sysinit:"
   && Contains (line_head (drop_bytes 10 contents)) "boxrc.d")
  || match contents with
     | EmptyString => false
     | String _ rest => sysinit_matches rest
     end.

Definition isBoxRC : M bool :=
  err <- os.Stat "/etc/boxinit.d" ;;
  match err with
  | Some _ => ret false
  | None =>
      err <- os.Stat "/etc/inittab" ;;
      match err with
      | None =>
          '(filerc, err) <- os_Open "/etc/inittab" ;;
          match err with
          | Some _ => ret false
          | None =>
              defer (os.Close filerc)
                (contents <- Buffer_ReadFrom filerc ;;
                 if sysinit_matches contents then ret true else ret false)
          end
      | Some _ => ret false
      end
  end.

(** ** Readings used in the statements *)

(** The test [isInContainer] makes on a line. *)
Definition has_marker (text : string) : bool :=
  Contains text "docker" || Contains text "lxc".

(** The lines [isInContainer] looks at when none of them ends the loop
    early: the first [maxlines + 1] the scanner delivers. *)
Definition scanned (cgroup : File) : list string :=
  match cgroup with
  | NoFile _ => []
  | Bytes data fault =>
      map fst (firstn (Z.to_nat (maxlines + 1)) (pending (NewScanner data fault)))
  end.

Definition unlines (ls : list string) : string :=
  String.concat EmptyString (map (fun l => l +:+ nl) ls).

(** A host with the given cgroup file, parent and parent stat record;
    every other path is missing. *)
Definition host (cgroup : File) (ppid : Z) (stat : File) : Host :=
  {| files := fun p =>
       if String.eqb p cgroupFile then cgroup
       else if String.eqb p (statPath ppid) then stat
       else NoFile (PathError "open" p ENOENT);
     Getppid := ppid |}.

Definition cgroup_docker : File :=
  Bytes (unlines ["12:devices:/docker/3f1c"; "11:cpu:/docker/3f1c"]) None.

Definition cgroup_plain : File :=
  Bytes (unlines ["12:devices:/init.scope"; "0::/init.scope"]) None.

(** [n] bytes of padding. *)
Fixpoint padding (n : nat) : string :=
  match n with
  | O => EmptyString
  | S n' => String "x"%char (padding n')
  end.

(** A first line of [n] bytes, then a line with a marker. *)
Definition cgroup_long (n : Z) : File :=
  Bytes (padding (Z.to_nat n) +:+ nl +:+ "1:name=x:/docker/3f1c" +:+ nl) None.

(** Five lines without a marker, then one with. *)
Definition cgroup_sixth : File :=
  Bytes (unlines ["6:a:/"; "5:b:/"; "4:c:/"; "3:d:/"; "2:e:/"; "1:name=x:/docker/3f1c"]) None.

Definition stat_of (pid : string) (comm : string) : File :=
  Bytes (pid +:+ " (" +:+ comm +:+ ") S 1 4242 4242 0 -1 4194560" +:+ nl) None.

Definition host_docker : Host := host cgroup_docker 1 (Bytes EmptyString None).
Definition host_init : Host := host cgroup_plain 1 (Bytes EmptyString None).
Definition host_shell : Host := host cgroup_plain 4242 (stat_of "4242" "bash").
Definition host_systemd : Host := host cgroup_plain 977 (stat_of "977" "systemd").
Definition host_gone : Host :=
  host cgroup_plain 4242 (NoFile (PathError "open" "/proc/4242/stat" ENOENT)).
Definition host_empty_stat : Host := host cgroup_plain 4242 (Bytes EmptyString None).
Definition host_unclosed : Host := host cgroup_plain 4242 (Bytes "4242 (bash" None).
Definition host_sixth : Host := host cgroup_sixth 1 (Bytes EmptyString None).

(** In the words of the spec, the name of a process-status record is the
    substring between the first opening parenthesis and its matching closing
    one; [binaryName] is compared with this reading.  [spec_matching s depth]
    is the place in [s] of the parenthesis that
    closes the one opened before [s], with [depth] more opened since. *)
Fixpoint spec_matching (s : string) (depth : nat) : option nat :=
  match s with
  | EmptyString => None
  | String c s' =>
      if Ascii.eqb c ")"%char then
        match depth with
        | O => Some O
        | S d => option_map S (spec_matching s' d)
        end
      else if Ascii.eqb c "("%char then option_map S (spec_matching s' (S depth))
      else option_map S (spec_matching s' depth)
  end.

Definition spec_binaryName (data : string) : option string :=
  if IndexRune data "("%char <? 0 then None
  else
    let tail := drop_bytes (Z.to_nat (IndexRune data "("%char + 1)) data in
    option_map (fun j => take_bytes j tail) (spec_matching tail 0).

(** The world after further effects that leave the files alone. *)
Definition logged (w : World) (es : list Event) : World :=
  {| fs := fs w; log := log w ++ es; signals := signals w |}.

(** An environment whose commands answer by name and arguments alone. *)
Definition env_of (p : string -> list string -> ProcResult) : Env :=
  {| process := fun _ => p;
     env_execPath := ("/usr/bin/svc", None);
     parses := fun _ => true;
     execute := fun script _ => (script, None);
     umask := 2 * 8 + 2 |}.

(** The two directories of boxrc, with nothing in them. *)
Definition boxrc_dirs : gmap string Node :=
  {[ "/etc/boxinit.d" := Directory; "/etc/boxrc.d" := Directory ]}.

Definition world0 : World := {| fs := boxrc_dirs; log := []; signals := [] |}.

Definition options0 : KeyValue :=
  {| optionUserService := None; optionRCSScript := None;
     optionLogDirectory := None; optionRunWait := None |}.

Definition config0 : Config :=
  {| Name := "svc"; DisplayName := "Service"; Description := "A service";
     Arguments := ["--flag"; "value with spaces"];
     WorkingDirectory := EmptyString; Option := options0 |}.

(** A service whose callbacks return the given errors. *)
Definition svc (start stop : option error) : boxrc.t :=
  {| boxrc.i := {| Interface.Start := fun _ => start; Interface.Stop := fun _ => stop |};
     boxrc.platform := "linux-boxrc";
     boxrc.config := config0 |}.

(** The control script of [svc] answers its subcommands with the given
    output on a zero exit. *)
Definition script_says (stdout : string) : Env :=
  env_of (fun _ _ => Waited None stdout EmptyString).

(** A command that exits with status zero and the given standard error. *)
Definition exits_zero (errOut : string) : Env :=
  env_of (fun _ _ => Waited None "ok" errOut).

(** The control script fails to run, or runs and fails. *)
Definition script_missing : Env :=
  env_of (fun command _ => StartFails (ExecError command ENOENT)).

Definition script_exits (code : Z) (stdout : string) : Env :=
  env_of (fun _ _ => Waited (Some (ExitError (Exited code))) stdout EmptyString).

(** The script stops the service and then fails to start it, or fails to
    stop it. *)
Definition stop_then_fail : Env :=
  env_of (fun _ arguments =>
            match arguments with
            | ["stop"] => Waited None ("Stopped" +:+ nl) EmptyString
            | _ => Waited (Some (ExitError (Exited 1))) ("Unable to start" +:+ nl) EmptyString
            end).

(** A world in which the given signals are still to come. *)
Definition world_with_signals (l : list Signal) : World :=
  {| fs := ∅; log := []; signals := l |}.

(** An environment in which the operator's script is used as it is. *)
Definition env0 : Env := script_says EmptyString.

(** The same service with the script replaced by the operator's. *)
Definition svc_custom (script : string) : boxrc.t :=
  {| boxrc.i := boxrc.i (svc None None);
     boxrc.platform := "linux-boxrc";
     boxrc.config :=
       {| Name := "svc"; DisplayName := "Service"; Description := "A service";
          Arguments := []; WorkingDirectory := "/srv";
          Option := {| optionUserService := None; optionRCSScript := Some script;
                       optionLogDirectory := None; optionRunWait := None |} |} |}.

(** A world in which the descriptor of [svc] is there already. *)
Definition world_installed : World :=
  {| fs := <[ "/etc/boxinit.d/65svc" := RegularFile ("#!/bin/sh" +:+ nl) (7 * 64 + 5 * 8 + 5) ]>
             boxrc_dirs;
     log := []; signals := [] |}.

(** The descriptor of a service is in place: its config path resolves to a
    regular file at [f]. *)
Definition in_place (s : boxrc.t) (m : gmap string Node) (f : string) : Prop :=
  exists data mode,
    os.follow os.MAXSYMLINKS m (boxrc.configPath s) = Some (f, Some (RegularFile data mode)).

(** The world after [svc] was installed from nothing. *)
Definition world_after_install : World :=
  snd (boxrc.Install (svc None None) env0 world0).

Definition to0 : TemplateData :=
  {| to_Name := "svc"; to_DisplayName := "Service"; to_Description := "A service";
     to_Arguments := ["--flag"; "value with spaces"];
     to_WorkingDirectory := EmptyString; to_Path := "/usr/bin/svc";
     to_LogDirectory := "/var/log" |}.

(** A parent record without an opening parenthesis. *)
Definition host_no_open : Host := host cgroup_plain 4242 (Bytes "systemd) S 1 4242" None).

(** A host whose cgroup file cannot be opened. *)
Definition host_no_cgroup : Host :=
  host (NoFile (PathError "open" cgroupFile ENOENT)) 977 (stat_of "977" "systemd").

(** The same host with another cgroup file. *)
Definition with_cgroup (h : Host) (cgroup : File) : Host :=
  {| files := fun p => if String.eqb p cgroupFile then cgroup else files h p;
     Getppid := Getppid h |}.







(** A service whose run-wait option is the given action. *)
Definition svc_wait (wait : M unit) (stop : option error) : boxrc.t :=
  {| boxrc.i := {| Interface.Start := fun _ => None; Interface.Stop := fun _ => stop |};
     boxrc.platform := "linux-boxrc";
     boxrc.config :=
       {| Name := "svc"; DisplayName := "Service"; Description := "A service";
          Arguments := []; WorkingDirectory := EmptyString;
          Option := {| optionUserService := None; optionRCSScript := None;
                       optionLogDirectory := None; optionRunWait := Some wait |} |} |}.

(** A command killed by signal 9. *)
Definition script_killed : Env :=
  env_of (fun _ _ => Waited (Some (ExitError (Signaled 9))) "partial" EmptyString).

(** The link [Install] makes and [Uninstall] removes. *)
Definition linkPath (s : boxrc.t) : string :=
  "/etc/boxrc.d/65" +:+ Name (boxrc.config s).


(** The mode of a file [os.Create] makes: 0666 without the bits of umask. *)
Definition created_mode (env : Env) : Z :=
  Z.land (6 * 64 + 6 * 8 + 6) (Z.lnot (umask env)).




(** The files are those of [base] with a regular file at the config path. *)
Definition descriptor_over (s : boxrc.t) (base m : gmap string Node) : Prop :=
  exists data mode, m = <[boxrc.configPath s := RegularFile data mode]> base.

(** A boxrc machine: the directory of the descriptors and an inittab that
    runs the scripts of boxrc.d at system start. *)
Definition world_boxrc : World :=
  {| fs := {[ "/etc/boxinit.d" := Directory;
              "/etc/inittab" :=
                RegularFile (unlines ["::sysinit:/etc/init.d/rcS";
                                      "::sysinit:/bin/run-parts /etc/boxrc.d";
                                      "::respawn:/sbin/getty 38400 tty1"])
                            (6 * 64 + 4 * 8 + 4) ]};
     log := []; signals := [] |}.

(** * Properties *)

#[local] Arguments String.append !_ _ : simpl nomatch.

(** ** Strings *)

Section Strings.

Implicit Types (s t pre post : string) (c : ascii).

Lemma len_nonneg s : 0 <= len s.
Proof. unfold len. lia. Qed.

Lemma len_app s t : len (s +:+ t) = len s + len t.
Proof.
  unfold len. induction s as [|b s IH]; simpl; [lia|].
  rewrite !Nat2Z.inj_succ. lia.
Qed.

Lemma app_assoc_s s t u : (s +:+ t) +:+ u = s +:+ (t +:+ u).
Proof. induction s as [|b s IH]; simpl; [reflexivity|]. now rewrite IH. Qed.

Lemma app_empty_r s : s +:+ EmptyString = s.
Proof. induction s as [|b s IH]; simpl; [reflexivity|]. now rewrite IH. Qed.

Lemma drop_bytes_app pre s : drop_bytes (String.length pre) (pre +:+ s) = s.
Proof. induction pre as [|b pre IH]; simpl; [reflexivity | exact IH]. Qed.

Lemma take_bytes_app pre s : take_bytes (String.length pre) (pre +:+ s) = pre.
Proof. induction pre as [|b pre IH]; simpl; [reflexivity | now rewrite IH]. Qed.

Lemma take_drop_bytes k s : take_bytes k s +:+ drop_bytes k s = s.
Proof.
  revert s. induction k as [|k IH]; intros [|b s]; simpl; try reflexivity.
  now rewrite IH.
Qed.

Lemma length_drop_bytes k s : String.length (drop_bytes k s) = (String.length s - k)%nat.
Proof.
  revert s. induction k as [|k IH]; intros [|b s]; simpl; try lia. apply IH.
Qed.

(** [HasPrefix] is: the string begins with the prefix. *)
Lemma HasPrefix_spec s pre : HasPrefix s pre = true <-> exists rest, s = pre +:+ rest.
Proof.
  revert s. induction pre as [|a pre IH]; intros s; simpl.
  - split; [intros _; now exists s | reflexivity].
  - destruct s as [|b s].
    + split; [discriminate | intros [rest H]; discriminate].
    + rewrite andb_true_iff, IH. split.
      * intros [Hab [rest ->]]. apply Ascii.eqb_eq in Hab as ->. now exists rest.
      * intros [rest H]. injection H as -> ->. split; [apply Ascii.eqb_refl | now exists rest].
Qed.

(** [HasSuffix] is: the string ends with the suffix. *)
Lemma HasSuffix_spec s suf : HasSuffix s suf = true <-> exists pre, s = pre +:+ suf.
Proof.
  unfold HasSuffix. rewrite andb_true_iff, Z.leb_le, String.eqb_eq. split.
  - intros [_ H]. exists (take_bytes (String.length s - String.length suf) s).
    rewrite <- (take_drop_bytes (String.length s - String.length suf) s) at 1.
    now rewrite H.
  - intros [pre ->]. split.
    + rewrite len_app. pose proof (len_nonneg pre). lia.
    + replace (String.length (pre +:+ suf) - String.length suf)%nat with (String.length pre).
      * apply drop_bytes_app.
      * pose proof (len_app pre suf) as H. unfold len in H. lia.
Qed.

(** [Contains] is: the substring occurs somewhere. *)
Lemma Contains_spec s sub : Contains s sub = true <-> exists pre post, s = pre +:+ sub +:+ post.
Proof.
  induction s as [|b s IH].
  - simpl. rewrite orb_false_r, HasPrefix_spec. split.
    + intros [rest H]. exists EmptyString, rest. exact H.
    + intros [[|a pre] [post H]]; [now exists post | discriminate].
  - change (Contains (String b s) sub) with (HasPrefix (String b s) sub || Contains s sub).
    rewrite orb_true_iff, HasPrefix_spec, IH. split.
    + intros [[rest H] | [pre [post H]]].
      * exists EmptyString, rest. exact H.
      * exists (String b pre), post. simpl. now rewrite H.
    + intros [[|a pre] [post H]].
      * left. now exists post.
      * right. simpl in H. injection H as _ ->. now exists pre, post.
Qed.

Lemma IndexRune_ge s c : -1 <= IndexRune s c.
Proof.
  induction s as [|b s IH]; simpl; [lia|].
  destruct (Ascii.eqb b c); [lia|]. destruct (Z.ltb_spec (IndexRune s c) 0); lia.
Qed.

Lemma IndexRune_lt s c : IndexRune s c < len s.
Proof.
  induction s as [|b s IH]; [reflexivity|].
  assert (Hl : len (String b s) = len s + 1) by (unfold len; simpl String.length; lia).
  rewrite Hl. pose proof (len_nonneg s). simpl.
  destruct (Ascii.eqb b c); [lia|]. destruct (Z.ltb_spec (IndexRune s c) 0); lia.
Qed.

(** The first occurrence: none in [pre], then the byte. *)
Lemma IndexRune_first pre c rest :
  IndexRune pre c = -1 -> IndexRune (pre +:+ String c rest) c = len pre.
Proof.
  induction pre as [|b pre IH]; simpl.
  - intros _. now rewrite Ascii.eqb_refl.
  - destruct (Ascii.eqb b c); [discriminate|].
    destruct (Z.ltb_spec (IndexRune pre c) 0) as [Hlt|Hge]; [|lia].
    intros _. rewrite IH.
    + unfold len at 1. destruct (Z.ltb_spec (Z.of_nat (String.length pre)) 0); [lia|].
      unfold len. simpl String.length. lia.
    + pose proof (IndexRune_ge pre c). lia.
Qed.

(** A slice inside the bounds is the bytes between them. *)
Lemma slice_middle pre mid post :
  slice (pre +:+ mid +:+ post) (len pre) (len pre + len mid) = Returns mid.
Proof.
  unfold slice. rewrite !len_app.
  pose proof (len_nonneg pre). pose proof (len_nonneg mid). pose proof (len_nonneg post).
  replace ((0 <=? len pre) && (len pre <=? len pre + len mid)
           && (len pre + len mid <=? len pre + (len mid + len post))) with true
    by (symmetry; rewrite !andb_true_iff, !Z.leb_le; lia).
  f_equal. unfold len. rewrite Nat2Z.id.
  replace (Z.to_nat (Z.of_nat (String.length pre) + Z.of_nat (String.length mid)
                     - Z.of_nat (String.length pre))) with (String.length mid) by lia.
  rewrite drop_bytes_app. apply take_bytes_app.
Qed.

Lemma slice_in_bounds s lo hi :
  0 <= lo <= hi -> hi <= len s ->
  slice s lo hi = Returns (take_bytes (Z.to_nat (hi - lo)) (drop_bytes (Z.to_nat lo) s)).
Proof.
  intros H1 H2. unfold slice.
  replace ((0 <=? lo) && (lo <=? hi) && (hi <=? len s)) with true; [reflexivity|].
  symmetry. rewrite !andb_true_iff, !Z.leb_le. lia.
Qed.

Lemma take_bytes_all s : take_bytes (String.length s) s = s.
Proof. induction s as [|b s IH]; simpl; [reflexivity | now rewrite IH]. Qed.

Lemma slice_inverted s lo hi : hi < lo -> slice s lo hi = Panics "slice bounds out of range".
Proof.
  intros H. unfold slice.
  destruct (Z.leb_spec lo hi); [lia|]. now rewrite andb_false_r.
Qed.

End Strings.

(** ** The execution-context detector *)

Section Detector.

(** The scanner on a file with a CRLF line, an empty line and a last line
    without newline, and on a file whose reader fails at the end. *)
Example NewScanner_lines :
  NewScanner ("a" +:+ String "013"%char nl +:+ "b" +:+ nl +:+ nl +:+ "last") None
    = {| pending := [("a", None); ("b", None); (EmptyString, None); ("last", None)];
         final := None |}
  /\ NewScanner ("a" +:+ nl +:+ "b") (Some (PathError "read" cgroupFile EIO))
     = {| pending := [("a", None); ("b", Some (PathError "read" cgroupFile EIO))];
          final := Some (PathError "read" cgroupFile EIO) |}.
Proof. split; reflexivity. Qed.

(** A line of 65535 bytes fits the buffer of the scanner; one byte more
    ends the scan with an error, which [isInContainer] returns. *)
Example isInContainer_long_line :
  isInContainer (cgroup_long 65535) = (true, None)
  /\ isInContainer (cgroup_long 65536) = (false, Some ErrTooLong).
Proof. split; vm_compute; reflexivity. Qed.

Lemma scanLoop_spec toks final k :
  0 <= k <= maxlines + 1 ->
  fst (scanLoop toks final k)
    = existsb has_marker (map fst (firstn (Z.to_nat (maxlines + 1 - k)) toks))
  /\ (fst (scanLoop toks final k) = true -> snd (scanLoop toks final k) = None).
Proof.
  revert k. induction toks as [|[text err] rest IH]; intros k Hk.
  - simpl. rewrite firstn_nil. split; [reflexivity | discriminate].
  - simpl scanLoop. destruct (Z.ltb_spec maxlines k) as [Hlt|Hle].
    + replace (maxlines + 1 - k) with 0 by lia. split; [reflexivity | discriminate].
    + replace (Z.to_nat (maxlines + 1 - k)) with (S (Z.to_nat (maxlines + 1 - (k + 1)))) by lia.
      simpl firstn. simpl map. simpl existsb. fold (has_marker text).
      destruct (has_marker text); [split; reflexivity|].
      apply IH. lia.
Qed.

(** The verdict of [isInContainer] is the test on the scanned lines, and a
    positive verdict comes with no error. *)
Lemma isInContainer_spec cgroup :
  fst (isInContainer cgroup) = existsb has_marker (scanned cgroup)
  /\ (fst (isInContainer cgroup) = true -> snd (isInContainer cgroup) = None).
Proof.
  destruct cgroup as [e|data fault]; simpl.
  - split; [reflexivity | discriminate].
  - apply (scanLoop_spec _ _ 0). unfold maxlines. lia.
Qed.

Lemma slice_tail pre s : slice (pre +:+ s) (len pre) (len (pre +:+ s)) = Returns s.
Proof.
  pose proof (slice_middle pre s EmptyString) as H.
  rewrite app_empty_r in H. now rewrite len_app.
Qed.

(** A record with a spec_binaryName name: [binaryName] returns what stands
    between the first opening parenthesis and the first closing one after it. *)
Lemma binaryName_parenthesised h pid pre name post :
  files h (statPath pid) = Bytes (pre +:+ "(" +:+ name +:+ ")" +:+ post) None ->
  IndexRune pre "("%char = -1 ->
  IndexRune name ")"%char = -1 ->
  binaryName h pid = Returns (name, None).
Proof.
  intros Hf Hpre Hname. unfold binaryName. rewrite Hf.
  change (pre +:+ "(" +:+ name +:+ ")" +:+ post)
    with (pre +:+ String "("%char (name +:+ String ")"%char post)).
  cbv beta iota delta [ReadFile].
  rewrite (IndexRune_first pre _ _ Hpre).
  assert (Hd : pre +:+ String "("%char (name +:+ String ")"%char post)
               = (pre +:+ "(") +:+ name +:+ String ")"%char post)
    by now rewrite app_assoc_s.
  assert (Hl : len pre + 1 = len (pre +:+ "(")) by now rewrite len_app.
  rewrite Hd, Hl, slice_tail.
  rewrite (IndexRune_first name _ _ Hname), slice_middle. reflexivity.
Qed.

(** An unreadable record is no panic: the name is empty. *)
Lemma binaryName_unreadable h pid data e :
  ReadFile (files h (statPath pid)) = (data, Some e) ->
  binaryName h pid = Returns (EmptyString, Some e).
Proof. intros H. unfold binaryName. now rewrite H. Qed.

(** A record read in full: the name starts after the first opening
    parenthesis (at the start when there is none) and ends before the first
    closing one after that; when there is none the second slice is inverted. *)
Lemma binaryName_readable h pid data :
  files h (statPath pid) = Bytes data None ->
  let tail := drop_bytes (Z.to_nat (IndexRune data "("%char + 1)) data in
  binaryName h pid =
    if IndexRune tail ")"%char <? 0 then Panics "slice bounds out of range"
    else Returns (take_bytes (Z.to_nat (IndexRune tail ")"%char)) tail, None).
Proof.
  intros Hf tail. unfold binaryName. rewrite Hf. cbv beta iota delta [ReadFile].
  pose proof (IndexRune_ge data "("%char) as Hge.
  pose proof (IndexRune_lt data "("%char) as Hlt.
  rewrite slice_in_bounds by lia.
  assert (Hlen : String.length tail
                 = Z.to_nat (len data - (IndexRune data "("%char + 1))).
  { unfold tail. rewrite length_drop_bytes. unfold len. lia. }
  rewrite <- Hlen. fold tail. rewrite take_bytes_all.
  pose proof (IndexRune_ge tail ")"%char) as Hge'.
  pose proof (IndexRune_lt tail ")"%char) as Hlt'.
  destruct (Z.ltb_spec (IndexRune tail ")"%char) 0) as [Hno|Hyes].
  - now rewrite slice_inverted by lia.
  - assert (Hl : len tail = len data - (IndexRune data "("%char + 1)) by (unfold len in *; lia).
    rewrite slice_in_bounds by lia. fold tail.
    replace (IndexRune data "("%char + 1 + IndexRune tail ")"%char
             - (IndexRune data "("%char + 1)) with (IndexRune tail ")"%char) by lia.
    reflexivity.
Qed.

Lemma option_map_S_Some (o : option nat) j :
  option_map S o = Some j -> exists j', o = Some j' /\ j = S j'.
Proof. destruct o as [j'|]; [|discriminate]. intros H. injection H as <-. eauto. Qed.

(** The matching parenthesis is not before the first closing one. *)
Lemma matching_after_first tail depth j :
  spec_matching tail depth = Some j -> 0 <= IndexRune tail ")"%char <= Z.of_nat j.
Proof.
  revert depth j. induction tail as [|b tail IH]; intros depth j; simpl; [discriminate|].
  destruct (Ascii.eqb b ")"%char); [lia|].
  intros H.
  assert (Hrec : exists d j', spec_matching tail d = Some j' /\ j = S j').
  { destruct (Ascii.eqb b "("%char); apply option_map_S_Some in H as (j' & H & ->); eauto. }
  destruct Hrec as (d & j' & Hrec & ->). apply IH in Hrec.
  destruct (Z.ltb_spec (IndexRune tail ")"%char) 0); lia.
Qed.

(** With no parenthesis opened before it, the first closing one matches. *)
Lemma matching_is_first tail k :
  IndexRune tail ")"%char = Z.of_nat k ->
  IndexRune (take_bytes k tail) "("%char = -1 ->
  spec_matching tail 0 = Some k.
Proof.
  revert k. induction tail as [|b tail IH]; intros k; simpl; [lia|].
  destruct (Ascii.eqb b ")"%char).
  - intros H _. now replace k with O by lia.
  - pose proof (IndexRune_ge tail ")"%char) as Hge.
    destruct (Z.ltb_spec (IndexRune tail ")"%char) 0) as [Hlt|Hpos]; [lia|].
    destruct k as [|k]; [lia|]. intros Hk. simpl.
    destruct (Ascii.eqb b "("%char); [discriminate|].
    destruct (Z.ltb_spec (IndexRune (take_bytes k tail) "("%char) 0) as [Hneg|Hpos'];
      [|pose proof (IndexRune_ge (take_bytes k tail) "("%char); lia].
    intros _. rewrite (IH k); [reflexivity | lia |].
    pose proof (IndexRune_ge (take_bytes k tail) "("%char). lia.
Qed.

Lemma IndexRune_take tail c k j :
  IndexRune tail c = Z.of_nat k -> (k < j)%nat ->
  IndexRune (take_bytes j tail) c = Z.of_nat k.
Proof.
  revert k j. induction tail as [|b tail IH]; intros k j; simpl; [lia|].
  destruct j as [|j]; [lia|]. simpl.
  destruct (Ascii.eqb b c); [trivial|].
  pose proof (IndexRune_ge tail c) as Hge.
  destruct (Z.ltb_spec (IndexRune tail c) 0) as [Hlt|Hpos]; [lia|].
  destruct k as [|k]; [lia|]. intros Hk Hj.
  rewrite (IH k j) by lia.
  destruct (Z.ltb_spec (Z.of_nat k) 0); lia.
Qed.

(** The name up to the first closing parenthesis is systemd exactly when
    the name up to the matching one is. *)
Lemma first_or_matching_systemd tail j :
  spec_matching tail 0 = Some j ->
  String.eqb (take_bytes (Z.to_nat (IndexRune tail ")"%char)) tail) "systemd"
    = String.eqb (take_bytes j tail) "systemd".
Proof.
  intros Hj. pose proof (matching_after_first _ _ _ Hj) as Hk.
  set (k := Z.to_nat (IndexRune tail ")"%char)).
  assert (Hik : IndexRune tail ")"%char = Z.of_nat k) by (unfold k; lia).
  destruct (String.eqb_spec (take_bytes k tail) "systemd") as [Hname|Hname].
  - assert (Hno : IndexRune (take_bytes k tail) "("%char = -1) by now rewrite Hname.
    rewrite (matching_is_first _ _ Hik Hno) in Hj. injection Hj as <-.
    rewrite Hname. reflexivity.
  - destruct (String.eqb_spec (take_bytes j tail) "systemd") as [Hname'|]; [|reflexivity].
    destruct (Nat.eq_dec k j) as [<-|Hne]; [contradiction|].
    assert (Hin : IndexRune (take_bytes j tail) ")"%char = Z.of_nat k)
      by (apply IndexRune_take; [exact Hik | lia]).
    rewrite Hname' in Hin. simpl in Hin. lia.
Qed.

(** On a record with a spec_binaryName name, [binaryName] returns and its
    result is systemd exactly when the spec_binaryName name is. *)
Lemma binaryName_matching h pid data name :
  files h (statPath pid) = Bytes data None ->
  spec_binaryName data = Some name ->
  exists binary,
    binaryName h pid = Returns (binary, None)
    /\ String.eqb binary "systemd" = String.eqb name "systemd".
Proof.
  intros Hf. rewrite (binaryName_readable _ _ _ Hf). unfold spec_binaryName. cbv zeta.
  destruct (Z.ltb_spec (IndexRune data "("%char) 0) as [|_]; [discriminate|].
  set (tail := drop_bytes (Z.to_nat (IndexRune data "("%char + 1)) data).
  destruct (spec_matching tail 0) as [j|] eqn:Hj; [|discriminate].
  intros H. injection H as <-.
  pose proof (matching_after_first _ _ _ Hj) as Hk.
  destruct (Z.ltb_spec (IndexRune tail ")"%char) 0) as [|_]; [lia|].
  eexists. split; [reflexivity|]. now apply first_or_matching_systemd.
Qed.

(** C2. [isInteractive] decides by the first rule that applies: a scanned
    line of the cgroup file with a container marker gives true whatever the
    parent is; otherwise a parent pid of 1 gives false whatever the parent's
    record holds; otherwise the answer is true exactly when the name between
    the first opening parenthesis of the parent's record and its matching
    closing one is not systemd. *)
Theorem isInteractive_decision_order (h : Host) :
  let container := existsb has_marker (scanned (files h cgroupFile)) in
  (container = true -> isInteractive h = Returns true)
  /\ (container = false -> Getppid h = 1 -> isInteractive h = Returns false)
  /\ (container = false -> Getppid h <> 1 ->
      forall data name,
        files h (statPath (Getppid h)) = Bytes data None ->
        spec_binaryName data = Some name ->
        isInteractive h = Returns (negb (String.eqb name "systemd"))).
Proof.
  intros container. subst container.
  destruct (isInContainer_spec (files h cgroupFile)) as [Hfst Hsnd].
  unfold isInteractive.
  destruct (isInContainer (files h cgroupFile)) as [inContainer err].
  simpl in Hfst, Hsnd. rewrite <- Hfst.
  repeat split.
  - intros ->. now rewrite Hsnd.
  - intros -> Hpp. rewrite Hpp. now destruct err.
  - intros -> Hpp data name Hf Hname.
    destruct (Z.eqb_spec (Getppid h) 1) as [|_]; [contradiction|].
    destruct (binaryName_matching _ _ _ _ Hf Hname) as (binary & -> & <-).
    now destruct err.
Qed.

(** A parent whose record cannot be opened or read in full counts as
    interactive: the name is empty, not systemd. *)
Lemma isInteractive_unreadable_parent (h : Host) data e :
  existsb has_marker (scanned (files h cgroupFile)) = false ->
  Getppid h <> 1 ->
  ReadFile (files h (statPath (Getppid h))) = (data, Some e) ->
  isInteractive h = Returns true.
Proof.
  destruct (isInContainer_spec (files h cgroupFile)) as [Hfst Hsnd].
  unfold isInteractive.
  destruct (isInContainer (files h cgroupFile)) as [inContainer err].
  simpl in Hfst, Hsnd. rewrite <- Hfst. intros -> Hpp Hf.
  destruct (Z.eqb_spec (Getppid h) 1) as [|_]; [contradiction|].
  rewrite (binaryName_unreadable _ _ _ _ Hf). now destruct err.
Qed.

Lemma isInteractive_unreadable_parent_witness : isInteractive host_gone = Returns true.
Proof.
  apply (isInteractive_unreadable_parent host_gone EmptyString
           (PathError "open" "/proc/4242/stat" ENOENT)); [reflexivity | discriminate | reflexivity].
Defined.

Lemma isInteractive_decision_order_witness :
  isInteractive host_docker = Returns true
  /\ isInteractive host_init = Returns false
  /\ isInteractive host_shell = Returns true
  /\ isInteractive host_systemd = Returns false.
Proof.
  split; [|split; [|split]].
  - apply (proj1 (isInteractive_decision_order host_docker)). reflexivity.
  - apply (proj1 (proj2 (isInteractive_decision_order host_init))); reflexivity.
  - apply (proj2 (proj2 (isInteractive_decision_order host_shell))
             eq_refl ltac:(discriminate) _ "bash" eq_refl eq_refl).
  - apply (proj2 (proj2 (isInteractive_decision_order host_systemd))
             eq_refl ltac:(discriminate) _ "systemd" eq_refl eq_refl).
Defined.

(** C6. The scan does not stop after five lines: with no marker in the
    first five lines of the cgroup file and one in the sixth,
    [isInContainer] reports a container, and [isInteractive] follows it. *)
Theorem isInContainer_sixth_line :
  existsb has_marker (firstn 5 (scanned cgroup_sixth)) = false
  /\ nth 5 (scanned cgroup_sixth) EmptyString = "1:name=x:/docker/3f1c"
  /\ isInContainer cgroup_sixth = (true, None)
  /\ isInteractive host_sixth = Returns true.
Proof. repeat split; reflexivity. Qed.

(** C7. A parent record that can be read but has no closing parenthesis
    makes [isInteractive] panic instead of returning: an empty record, and
    one cut after the name. *)
Theorem isInteractive_panics_on_unclosed_record :
  isInteractive host_empty_stat = Panics "slice bounds out of range"
  /\ isInteractive host_unclosed = Panics "slice bounds out of range".
Proof. split; reflexivity. Qed.

(** [isInContainer] reports a container exactly when one of the first
    [maxlines + 1] lines the scanner delivers has a marker, six lines and not
    five; what follows them is never looked at. *)
Theorem isInContainer_looks_at_six_lines (cgroup : File) :
  fst (isInContainer cgroup) = existsb has_marker (scanned cgroup)
  /\ (length (scanned cgroup) <= 6)%nat
  /\ (forall data fault,
        cgroup = Bytes data fault ->
        scanned cgroup = map fst (firstn 6 (pending (NewScanner data fault)))).
Proof.
  split; [apply isInContainer_spec|]. split.
  - destruct cgroup as [e|data fault]; simpl; [lia|].
    rewrite length_map, length_firstn. unfold maxlines. lia.
  - intros data fault ->. reflexivity.
Qed.

(** [isInteractive] returns a boolean in every case but one: it panics
    exactly when no container is detected, the parent is not pid 1, and the
    parent's record is read in full but has no closing parenthesis after its
    first opening one.  No failure to open or read a file makes it panic. *)
Theorem isInteractive_panics_iff (h : Host) (msg : string) :
  isInteractive h = Panics msg <->
  existsb has_marker (scanned (files h cgroupFile)) = false
  /\ Getppid h <> 1
  /\ msg = "slice bounds out of range"
  /\ exists data,
       files h (statPath (Getppid h)) = Bytes data None
       /\ IndexRune (drop_bytes (Z.to_nat (IndexRune data "("%char + 1)) data) ")"%char = -1.
Proof.
  destruct (isInContainer_spec (files h cgroupFile)) as [Hfst Hsnd].
  unfold isInteractive.
  destruct (isInContainer (files h cgroupFile)) as [inContainer err].
  simpl in Hfst, Hsnd. rewrite <- Hfst. clear Hfst.
  assert (Hgate : match err with Some _ => false | None => inContainer end = inContainer).
  { destruct inContainer; [now rewrite Hsnd | now destruct err]. }
  rewrite Hgate. clear Hgate Hsnd err.
  destruct inContainer.
  { split; [discriminate | intros [H _]; discriminate]. }
  destruct (Z.eqb_spec (Getppid h) 1) as [Hpp|Hpp].
  { split; [discriminate | intros (_ & H & _); contradiction]. }
  destruct (files h (statPath (Getppid h))) as [e|data [e|]] eqn:Hf.
  - rewrite (binaryName_unreadable h _ EmptyString e) by now rewrite Hf.
    split; [discriminate | intros (_ & _ & _ & data & H & _); discriminate].
  - rewrite (binaryName_unreadable h _ data e) by now rewrite Hf.
    split; [discriminate | intros (_ & _ & _ & data' & H & _); discriminate].
  - rewrite (binaryName_readable h _ data Hf). cbv zeta.
    pose proof (IndexRune_ge (drop_bytes (Z.to_nat (IndexRune data "("%char + 1)) data)
                  ")"%char) as Hge.
    destruct (Z.ltb_spec (IndexRune (drop_bytes (Z.to_nat (IndexRune data "("%char + 1)) data)
                            ")"%char) 0) as [Hno|Hyes].
    + split.
      * intros H. injection H as <-. repeat split; try assumption.
        exists data. split; [reflexivity | lia].
      * intros (_ & _ & -> & _). reflexivity.
    + split; [discriminate|].
      intros (_ & _ & _ & data' & Hd & Hno). injection Hd as <-. lia.
Qed.

End Detector.

(** ** The process invoker *)

Section Invoker.

Variables (env : Env) (w : World).

(** Unfolds the monad of a method applied to an environment and a world. *)
Ltac step :=
  cbv beta iota zeta delta
    [runCommand exec.Command bind ret get ask emit logged].

Lemma runCommand_start_fails command readStdout arguments err :
  process env (log w) command arguments = StartFails err ->
  runCommand command readStdout arguments env w
    = (Done (0, EmptyString, Some (ErrFailed command err)),
       logged w [EvCommand command arguments]).
Proof. intros H. step. now rewrite H. Qed.

Lemma runCommand_wait_fails command readStdout arguments err stdout errOut :
  process env (log w) command arguments = Waited (Some err) stdout errOut ->
  runCommand command readStdout arguments env w
    = (Done (match err with
             | ExitError ws => (ExitStatus ws, if readStdout then stdout else EmptyString, Some err)
             | _ => (0, if readStdout then stdout else EmptyString, Some (ErrFailed command err))
             end),
       logged w [EvCommand command arguments]).
Proof. intros H. step. rewrite H. now destruct err. Qed.

Lemma runCommand_zero command readStdout arguments stdout errOut :
  process env (log w) command arguments = Waited None stdout errOut ->
  runCommand command readStdout arguments env w
    = (Done (if String.eqb command "launchctl"
                && ((0 <? len errOut)
                    && negb (HasSuffix errOut ("Operation now in progress" +:+ nl)))
             then (0, EmptyString, Some (ErrFailedStderr command errOut))
             else (0, if readStdout then stdout else EmptyString, None)),
       logged w [EvCommand command arguments]).
Proof.
  intros H. step. rewrite H.
  now destruct (String.eqb command "launchctl"
                && ((0 <? len errOut)
                    && negb (HasSuffix errOut ("Operation now in progress" +:+ nl)))).
Qed.

Lemma len_pos_iff (s : string) : (0 <? len s) = true <-> s <> EmptyString.
Proof.
  destruct s as [|b s]; [split; [discriminate | congruence]|].
  split; [discriminate|]. intros _. apply Z.ltb_lt. unfold len. simpl String.length. lia.
Qed.

(** C8. On a zero exit, [runCommand] reports a failure exactly when the
    command is launchctl and its standard error is not empty and does not
    end with the in-progress message; every other command succeeds whatever
    its standard error holds. *)
Theorem runCommand_zero_exit command (readStdout : bool) arguments stdout errOut :
  process env (log w) command arguments = Waited None stdout errOut ->
  let out := if readStdout then stdout else EmptyString in
  let w' := logged w [EvCommand command arguments] in
  let benign := exists pre, errOut = pre +:+ "Operation now in progress" +:+ nl in
  (command = "launchctl" -> errOut <> EmptyString -> ~ benign ->
   runCommand command readStdout arguments env w
     = (Done (0, EmptyString, Some (ErrFailedStderr command errOut)), w'))
  /\ (command = "launchctl" -> errOut = EmptyString \/ benign ->
      runCommand command readStdout arguments env w = (Done (0, out, None), w'))
  /\ (command <> "launchctl" ->
      runCommand command readStdout arguments env w = (Done (0, out, None), w')).
Proof.
  intros H out w' benign. rewrite (runCommand_zero _ _ _ _ _ H). fold w'.
  repeat split.
  - intros -> Hne Hnb. apply len_pos_iff in Hne. rewrite Hne.
    destruct (HasSuffix errOut ("Operation now in progress" +:+ nl)) eqn:Hs; [|reflexivity].
    exfalso. apply Hnb. now apply HasSuffix_spec.
  - intros -> [-> | Hb]; [reflexivity|].
    apply HasSuffix_spec in Hb. rewrite Hb. now rewrite andb_false_r.
  - intros Hc. apply String.eqb_neq in Hc. now rewrite Hc.
Qed.

End Invoker.

Lemma runCommand_zero_exit_witness :
  runCommand "launchctl" false ["load"; "x.plist"] (exits_zero ("Could not find service" +:+ nl)) world0
    = (Done (0, EmptyString,
             Some (ErrFailedStderr "launchctl" ("Could not find service" +:+ nl))),
       logged world0 [EvCommand "launchctl" ["load"; "x.plist"]])
  /\ runCommand "launchctl" true ["load"; "x.plist"]
       (exits_zero ("x.plist: Operation now in progress" +:+ nl)) world0
     = (Done (0, "ok", None), logged world0 [EvCommand "launchctl" ["load"; "x.plist"]])
  /\ runCommand "launchctl" true ["list"] (exits_zero EmptyString) world0
     = (Done (0, "ok", None), logged world0 [EvCommand "launchctl" ["list"]])
  /\ runCommand "systemctl" true ["start"; "x"] (exits_zero ("Could not find service" +:+ nl)) world0
     = (Done (0, "ok", None), logged world0 [EvCommand "systemctl" ["start"; "x"]]).
Proof.
  split; [|split; [|split]].
  - apply (proj1 (runCommand_zero_exit (exits_zero ("Could not find service" +:+ nl)) world0
                    "launchctl" false ["load"; "x.plist"] "ok" _ eq_refl));
      [reflexivity | discriminate |].
    intros Hb. apply HasSuffix_spec in Hb. discriminate Hb.
  - apply (proj1 (proj2 (runCommand_zero_exit
                    (exits_zero ("x.plist: Operation now in progress" +:+ nl)) world0
                    "launchctl" true ["load"; "x.plist"] "ok" _ eq_refl)));
      [reflexivity|].
    right. now exists "x.plist: ".
  - apply (proj1 (proj2 (runCommand_zero_exit (exits_zero EmptyString) world0
                    "launchctl" true ["list"] "ok" _ eq_refl)));
      [reflexivity | now left].
  - apply (proj2 (proj2 (runCommand_zero_exit (exits_zero ("Could not find service" +:+ nl)) world0
                    "systemctl" true ["start"; "x"] "ok" _ eq_refl))).
    discriminate.
Defined.

(** ** The boxrc backend: status, start, stop, restart *)

Section Control.

Variables (s : boxrc.t) (env : Env) (w : World).

Ltac step :=
  cbv beta iota zeta delta
    [run runWithOutput bind ret time.Sleep
     boxrc.Status boxrc.Start boxrc.Stop boxrc.Restart].

Lemma configPath_not_launchctl : String.eqb (boxrc.configPath s) "launchctl" = false.
Proof. reflexivity. Qed.

(** The status command on a zero exit gives its standard output. *)
Lemma runWithOutput_status_zero stdout errOut :
  process env (log w) (boxrc.configPath s) ["status"] = Waited None stdout errOut ->
  runWithOutput (boxrc.configPath s) ["status"] env w
    = (Done (0, stdout, None), logged w [EvCommand (boxrc.configPath s) ["status"]]).
Proof.
  intros H. unfold runWithOutput. rewrite (runCommand_zero _ _ _ _ _ _ _ H).
  now rewrite configPath_not_launchctl.
Qed.

(** A command that does not end with a zero exit gives an error that is
    not the sentinel. *)
Lemma runCommand_failure command readStdout arguments :
  match process env (log w) command arguments with
  | Waited None _ _ => False
  | _ => True
  end ->
  exists code out err,
    runCommand command readStdout arguments env w
      = (Done (code, out, Some err), logged w [EvCommand command arguments])
    /\ err <> ErrNotInstalled.
Proof.
  destruct (process env (log w) command arguments) as [e|[e|] stdout errOut] eqn:H;
    intros Hfail; [| |contradiction].
  - rewrite (runCommand_start_fails _ _ _ _ _ _ H). eexists _, _, _. split; [reflexivity | discriminate].
  - rewrite (runCommand_wait_fails _ _ _ _ _ _ _ _ H).
    destruct e; eexists _, _, _; (split; [reflexivity | discriminate]).
Qed.

(** C1. [Status] decodes the output of the status command: on a zero exit,
    standard output that begins with Running gives running and no error,
    output that begins with Stopped gives stopped and no error, any other
    output gives unknown and the not-installed sentinel; when the command
    fails, unknown comes with the error of the command, which is never the
    sentinel. *)
Theorem Status_decoding :
  let path := boxrc.configPath s in
  let answer := process env (log w) path ["status"] in
  let w' := logged w [EvCommand path ["status"]] in
  (forall rest errOut,
     answer = Waited None ("Running" +:+ rest) errOut ->
     boxrc.Status s env w = (Done (StatusRunning, None), w'))
  /\ (forall rest errOut,
        answer = Waited None ("Stopped" +:+ rest) errOut ->
        boxrc.Status s env w = (Done (StatusStopped, None), w'))
  /\ (forall stdout errOut,
        answer = Waited None stdout errOut ->
        HasPrefix stdout "Running" = false ->
        HasPrefix stdout "Stopped" = false ->
        boxrc.Status s env w = (Done (StatusUnknown, Some ErrNotInstalled), w'))
  /\ (match answer with Waited None _ _ => False | _ => True end ->
      exists code out err,
        runWithOutput path ["status"] env w = (Done (code, out, Some err), w')
        /\ boxrc.Status s env w = (Done (StatusUnknown, Some err), w')
        /\ err <> ErrNotInstalled).
Proof.
  intros path answer w'. subst path answer w'. repeat split.
  - intros rest errOut H. step. fold (runWithOutput (boxrc.configPath s) ["status"]).
    now rewrite (runWithOutput_status_zero _ _ H).
  - intros rest errOut H. step. fold (runWithOutput (boxrc.configPath s) ["status"]).
    now rewrite (runWithOutput_status_zero _ _ H).
  - intros stdout errOut H Hr Hs. step. fold (runWithOutput (boxrc.configPath s) ["status"]).
    rewrite (runWithOutput_status_zero _ _ H). cbv beta iota. now rewrite Hr, Hs.
  - intros Hfail.
    destruct (runCommand_failure (boxrc.configPath s) true ["status"] Hfail)
      as (code & out & err & Hrun & Hne).
    exists code, out, err. unfold boxrc.Status, runWithOutput, bind. rewrite Hrun.
    split; [reflexivity | split; [reflexivity | assumption]].
Qed.

(** [Stop] and [Start] always return: they run the script once. *)
Lemma run_returns_at w0 command arguments :
  exists err,
    run command arguments env w0 = (Done err, logged w0 [EvCommand command arguments]).
Proof.
  unfold run, bind.
  destruct (process env (log w0) command arguments) as [e|[e|] stdout errOut] eqn:H.
  - rewrite (runCommand_start_fails _ _ _ _ _ _ H). now eexists.
  - rewrite (runCommand_wait_fails _ _ _ _ _ _ _ _ H). destruct e; now eexists.
  - rewrite (runCommand_zero _ _ _ _ _ _ _ H).
    match goal with |- context [if ?c then _ else _] => destruct c end; now eexists.
Qed.

Lemma run_returns command arguments :
  exists err,
    run command arguments env w = (Done err, logged w [EvCommand command arguments]).
Proof. apply run_returns_at. Qed.

Lemma logged_logged a b : logged (logged w a) b = logged w (a ++ b).
Proof. unfold logged. simpl. now rewrite <- app_assoc. Qed.

(** C4. [Restart] runs the stop command first.  When that fails, its error
    is returned and nothing else happens: the start command is not run.
    When it succeeds, the process sleeps 50 milliseconds, then the start
    command runs and its result is returned. *)
Theorem Restart_stop_then_start :
  let path := boxrc.configPath s in
  let stopped := logged w [EvCommand path ["stop"]] in
  let rested := logged w [EvCommand path ["stop"]; EvSleep 50000000] in
  let started :=
    logged w [EvCommand path ["stop"]; EvSleep 50000000; EvCommand path ["start"]] in
  (exists err, boxrc.Stop s env w = (Done err, stopped))
  /\ (forall e,
        boxrc.Stop s env w = (Done (Some e), stopped) ->
        boxrc.Restart s env w = (Done (Some e), stopped))
  /\ (boxrc.Stop s env w = (Done None, stopped) ->
      exists err,
        boxrc.Start s env rested = (Done err, started)
        /\ boxrc.Restart s env w = (Done err, started)).
Proof.
  intros path stopped rested started. split; [|split].
  - apply run_returns.
  - intros e H. unfold boxrc.Restart, bind. now rewrite H.
  - intros H.
    assert (Hrested : rested = logged stopped [EvSleep 50000000])
      by (unfold rested, stopped; now rewrite logged_logged).
    destruct (run_returns_at rested path ["start"]) as [err Hstart].
    exists err.
    assert (Hstarted : logged rested [EvCommand path ["start"]] = started)
      by (unfold rested, started; now rewrite logged_logged).
    rewrite Hstarted in Hstart. split; [exact Hstart|].
    unfold boxrc.Restart, bind. rewrite H. unfold time.Sleep, emit.
    fold (logged stopped [EvSleep (50 * time.Millisecond)]).
    change (50 * time.Millisecond) with 50000000. rewrite <- Hrested. exact Hstart.
Qed.

End Control.

Lemma Status_decoding_witness :
  fst (boxrc.Status (svc None None) (script_says ("Running" +:+ nl)) world0)
    = Done (StatusRunning, None)
  /\ fst (boxrc.Status (svc None None) (script_says ("Stopped" +:+ nl)) world0)
     = Done (StatusStopped, None)
  /\ fst (boxrc.Status (svc None None) (script_says "Paused") world0)
     = Done (StatusUnknown, Some ErrNotInstalled)
  /\ fst (boxrc.Status (svc None None) script_missing world0)
     = Done (StatusUnknown, Some (ErrFailed "/etc/boxinit.d/65svc"
                                    (ExecError "/etc/boxinit.d/65svc" ENOENT))).
Proof.
  split; [|split; [|split]].
  - rewrite (proj1 (Status_decoding (svc None None) (script_says ("Running" +:+ nl)) world0)
               nl EmptyString eq_refl).
    reflexivity.
  - rewrite (proj1 (proj2 (Status_decoding (svc None None) (script_says ("Stopped" +:+ nl)) world0))
               nl EmptyString eq_refl).
    reflexivity.
  - rewrite (proj1 (proj2 (proj2 (Status_decoding (svc None None) (script_says "Paused") world0)))
               "Paused" EmptyString eq_refl eq_refl eq_refl).
    reflexivity.
  - destruct (proj2 (proj2 (proj2 (Status_decoding (svc None None) script_missing world0))) I)
      as (code & out & err & Hrun & Hstatus & _).
    rewrite Hstatus. injection Hrun as _ _ <-. reflexivity.
Defined.

Lemma Restart_stop_then_start_witness :
  boxrc.Restart (svc None None) (script_exits 1 ("Not stopped" +:+ nl)) world0
    = (Done (Some (ExitError (Exited 1))),
       logged world0 [EvCommand "/etc/boxinit.d/65svc" ["stop"]])
  /\ boxrc.Restart (svc None None) stop_then_fail world0
     = (Done (Some (ExitError (Exited 1))),
        logged world0 [EvCommand "/etc/boxinit.d/65svc" ["stop"]; EvSleep 50000000;
                       EvCommand "/etc/boxinit.d/65svc" ["start"]])
  /\ boxrc.Restart (svc None None) (script_says EmptyString) world0
     = (Done None,
        logged world0 [EvCommand "/etc/boxinit.d/65svc" ["stop"]; EvSleep 50000000;
                       EvCommand "/etc/boxinit.d/65svc" ["start"]]).
Proof.
  split; [|split].
  - apply (proj1 (proj2 (Restart_stop_then_start (svc None None)
                           (script_exits 1 ("Not stopped" +:+ nl)) world0))).
    reflexivity.
  - destruct (proj2 (proj2 (Restart_stop_then_start (svc None None) stop_then_fail world0))
                eq_refl) as (err & Hstart & Hrestart).
    rewrite Hrestart. injection Hstart as <-. reflexivity.
  - destruct (proj2 (proj2 (Restart_stop_then_start (svc None None)
                              (script_says EmptyString) world0))
                eq_refl) as (err & Hstart & Hrestart).
    rewrite Hrestart. injection Hstart as <-. reflexivity.
Defined.

(** ** The boxrc backend: run *)

Section Running.

Variables (s : boxrc.t) (env : Env) (w : World).

(** The channel of [Run] relays SIGTERM and the interrupt signal only. *)
Lemma relayed_run_channel sig :
  signal.relayed [SIGTERM; os.Interrupt] sig = true <-> sig = SIGTERM \/ sig = SIGINT.
Proof.
  destruct sig; simpl; split; intros H; try discriminate; try reflexivity; auto;
    destruct H; discriminate.
Qed.

(** The receive takes the first relayed signal and leaves what follows,
    when the signals before it are of those the runtime takes no action on. *)
Lemma next_found c early sig later :
  (forall x, In x early -> signal.relayed c x = false /\ signal.exits x = false) ->
  signal.relayed c sig = true ->
  signal.next c (early ++ sig :: later)%list = signal.Relayed sig later.
Proof.
  intros Hearly Hsig. induction early as [|x early IH]; simpl.
  - now rewrite Hsig.
  - destruct (Hearly x) as [-> ->]; [now left|].
    apply IH. intros y Hy. apply Hearly. now right.
Qed.

Lemma next_never c incoming :
  (forall x, In x incoming -> signal.relayed c x = false /\ signal.exits x = false) ->
  signal.next c incoming = signal.Never.
Proof.
  intros H. induction incoming as [|x incoming IH]; simpl; [reflexivity|].
  destruct (H x) as [-> ->]; [now left|].
  apply IH. intros y Hy. apply H. now right.
Qed.

(** A signal that ends the program and is not relayed ends the receive. *)
Lemma next_ended c early sig later :
  (forall x, In x early -> signal.relayed c x = false /\ signal.exits x = false) ->
  signal.relayed c sig = false ->
  signal.exits sig = true ->
  signal.next c (early ++ sig :: later)%list = signal.Ended sig later.
Proof.
  intros Hearly Hsig Hexit. induction early as [|x early IH]; simpl.
  - now rewrite Hsig, Hexit.
  - destruct (Hearly x) as [-> ->]; [now left|].
    apply IH. intros y Hy. apply Hearly. now right.
Qed.

(** The signals the runtime takes no action on are not of the channel. *)
Lemma not_relayed sig :
  signal.exits sig = false ->
  signal.relayed [SIGTERM; os.Interrupt] sig = false /\ signal.exits sig = false.
Proof. destruct sig; intros H; try discriminate H. now split. Qed.

(** C10. When the Start callback returns an error, [Run] returns it at
    once: no signal is waited for and the Stop callback is not invoked,
    whatever the run-wait option and the signals to come are. *)
Theorem Run_start_error (e : error) :
  Interface.Start (boxrc.i s) (log w) = Some e ->
  boxrc.Run s env w = (Done (Some e), logged w [EvInterfaceStart]).
Proof.
  intros H. unfold boxrc.Run, boxrc.call, bind, get, emit, ret. now rewrite H.
Qed.

(** C5. With the run-wait option left at its default and a Start callback
    that returns no error, [Run] invokes Start, registers a channel for
    SIGTERM and the interrupt signal and waits on it: when one of the two
    arrives, after signals the runtime takes no action on, [Run] invokes the
    Stop callback and returns its result; as long as only such signals
    arrive [Run] stays blocked and Stop is not invoked.  (A signal that ends
    the program, SIGHUP or SIGQUIT, is not of the channel: see
    [Run_ended_by_signal].) *)
Theorem Run_start_wait_stop :
  optionRunWait (Option (boxrc.config s)) = None ->
  Interface.Start (boxrc.i s) (log w) = None ->
  (forall early sig later,
     signals w = (early ++ sig :: later)%list ->
     (forall x, In x early -> signal.exits x = false) ->
     sig = SIGTERM \/ sig = SIGINT ->
     let seen := (log w ++ [EvInterfaceStart; EvNotify [SIGTERM; SIGINT]; EvReceive sig])%list in
     boxrc.Run s env w
       = (Done (Interface.Stop (boxrc.i s) seen),
          {| fs := fs w; log := (seen ++ [EvInterfaceStop])%list; signals := later |}))
  /\ ((forall x, In x (signals w) -> signal.exits x = false) ->
      boxrc.Run s env w
        = (Blocked, logged w [EvInterfaceStart; EvNotify [SIGTERM; SIGINT]])).
Proof.
  intros Hopt Hstart. split.
  - intros early sig later Hsig Hearly Hrelay seen.
    unfold boxrc.Run, boxrc.call, bind, get, emit, ret. rewrite Hstart, Hopt.
    unfold KeyValue_funcSingle, signal.Notify, signal.receive, bind, get, emit, ret, put_signals.
    cbv beta iota. cbn [fs log signals]. rewrite Hsig.
    rewrite next_found;
      [| intros x Hx; apply not_relayed, Hearly, Hx | now apply relayed_run_channel].
    cbv beta iota. cbn [fs log signals]. unfold seen.
    now rewrite <- !app_assoc.
  - intros Hnone.
    unfold boxrc.Run, boxrc.call, bind, get, emit, ret. rewrite Hstart, Hopt.
    unfold KeyValue_funcSingle, signal.Notify, signal.receive, bind, get, emit, ret, block.
    cbv beta iota. cbn [fs log signals].
    rewrite next_never by (intros x Hx; apply not_relayed, Hnone, Hx).
    unfold logged. simpl. now rewrite <- app_assoc.
Qed.

(** The wait of [Run] does not survive a hangup or a quit signal: the
    channel does not relay them, the program ends where it waits and the
    Stop callback is not invoked. *)
Lemma Run_ended_by_signal early sig later :
  optionRunWait (Option (boxrc.config s)) = None ->
  Interface.Start (boxrc.i s) (log w) = None ->
  signals w = (early ++ sig :: later)%list ->
  (forall x, In x early -> signal.exits x = false) ->
  sig = SIGHUP \/ sig = SIGQUIT ->
  boxrc.Run s env w
    = (Killed sig,
       {| fs := fs w; log := (log w ++ [EvInterfaceStart; EvNotify [SIGTERM; SIGINT]])%list;
          signals := later |}).
Proof.
  intros Hopt Hstart Hsig Hearly Hfatal.
  unfold boxrc.Run, boxrc.call, bind, get, emit, ret. rewrite Hstart, Hopt.
  unfold KeyValue_funcSingle, signal.Notify, signal.receive, bind, get, emit, ret,
    put_signals, kill.
  cbv beta iota. cbn [fs log signals]. rewrite Hsig.
  rewrite next_ended;
    [| intros x Hx; apply not_relayed, Hearly, Hx
     | destruct Hfatal as [-> | ->]; reflexivity
     | destruct Hfatal as [-> | ->]; reflexivity].
  cbv beta iota. cbn [fs log signals]. now rewrite <- !app_assoc.
Qed.

End Running.

Lemma Run_start_error_witness :
  boxrc.Run (svc (Some (UserError "no database")) None) (script_says EmptyString)
    (world_with_signals [SIGTERM])
  = (Done (Some (UserError "no database")),
     logged (world_with_signals [SIGTERM]) [EvInterfaceStart]).
Proof.
  apply (Run_start_error (svc (Some (UserError "no database")) None)
           (script_says EmptyString) (world_with_signals [SIGTERM])).
  reflexivity.
Defined.

Lemma Run_start_wait_stop_witness :
  boxrc.Run (svc None (Some (UserError "flush failed"))) (script_says EmptyString)
    (world_with_signals [SIGUSR1; SIGUSR1; SIGINT; SIGTERM])
  = (Done (Some (UserError "flush failed")),
     {| fs := ∅;
        log := [EvInterfaceStart; EvNotify [SIGTERM; SIGINT]; EvReceive SIGINT; EvInterfaceStop];
        signals := [SIGTERM] |})
  /\ boxrc.Run (svc None None) (script_says EmptyString) (world_with_signals [SIGUSR1; SIGUSR1])
     = (Blocked,
        logged (world_with_signals [SIGUSR1; SIGUSR1])
          [EvInterfaceStart; EvNotify [SIGTERM; SIGINT]]).
Proof.
  split.
  - apply (proj1 (Run_start_wait_stop (svc None (Some (UserError "flush failed")))
                    (script_says EmptyString)
                    (world_with_signals [SIGUSR1; SIGUSR1; SIGINT; SIGTERM]) eq_refl eq_refl)
             [SIGUSR1; SIGUSR1] SIGINT [SIGTERM] eq_refl).
    + intros x [<-|[<-|[]]]; reflexivity.
    + now right.
  - apply (proj2 (Run_start_wait_stop (svc None None) (script_says EmptyString)
                    (world_with_signals [SIGUSR1; SIGUSR1]) eq_refl eq_refl)).
    intros x [<-|[<-|[]]]; reflexivity.
Defined.

(** A hangup while the service waits ends it before Stop is invoked. *)
Example Run_hangup :
  boxrc.Run (svc None None) (script_says EmptyString) (world_with_signals [SIGUSR1; SIGHUP; SIGINT])
  = (Killed SIGHUP,
     {| fs := ∅; log := [EvInterfaceStart; EvNotify [SIGTERM; SIGINT]]; signals := [SIGINT] |}).
Proof. reflexivity. Qed.

(** ** The boxrc backend: install *)

Section Installing.

Implicit Types (m : gmap string Node) (p q : string) (n : nat).

Lemma follow_eq n m p :
  os.follow n m p =
    match m !! p with
    | Some (SymlinkTo target) =>
        match n with O => None | S n' => os.follow n' m target end
    | o => Some (p, o)
    end.
Proof. destruct n; reflexivity. Qed.

(** Resolution ends at a path that holds no link. *)
Lemma follow_end n m p q o :
  os.follow n m p = Some (q, o) -> m !! q = o /\ forall t, o <> Some (SymlinkTo t).
Proof.
  revert p. induction n as [|n IH]; intros p; rewrite follow_eq;
    destruct (m !! p) as [[data mode|target|]|] eqn:Hp; intros H;
    try (injection H as <- <-; split; [exact Hp | discriminate]);
    try discriminate.
  exact (IH _ H).
Qed.

(** Writing a file or a directory where resolution ends keeps the way there. *)
Lemma follow_insert_end n m p q o node :
  os.follow n m p = Some (q, o) ->
  (forall t, node <> SymlinkTo t) ->
  os.follow n (<[q := node]> m) p = Some (q, Some node).
Proof.
  intros H Hnode. destruct (follow_end _ _ _ _ _ H) as [Hq Hno].
  revert p H. induction n as [|n IH]; intros p; rewrite !follow_eq;
    destruct (m !! p) as [[data mode|target|]|] eqn:Hp; intros H;
    try discriminate;
    try (injection H as <- <-; rewrite lookup_insert_eq;
         destruct node; try reflexivity; now destruct (Hnode target)).
  assert (Hne : q <> p).
  { intros ->. rewrite Hp in Hq. subst o. now destruct (Hno target). }
  rewrite lookup_insert_ne, Hp by exact Hne. exact (IH _ H).
Qed.

(** A new entry at a path that was free keeps every resolution that ends
    at a node. *)
Lemma follow_insert_fresh n m p q node new x :
  os.follow n m p = Some (q, Some node) ->
  m !! new = None ->
  os.follow n (<[new := x]> m) p = Some (q, Some node).
Proof.
  intros H Hnew. revert p H. induction n as [|n IH]; intros p; rewrite !follow_eq;
    destruct (m !! p) as [[data mode|target|]|] eqn:Hp; intros H;
    try discriminate;
    (assert (Hne : new <> p) by (intros ->; rewrite Hp in Hnew; discriminate));
    rewrite lookup_insert_ne, Hp by exact Hne; try exact H.
  exact (IH _ H).
Qed.

Variables (s : boxrc.t) (env : Env) (w : World).

(** What a sequence that returns did before. *)
Lemma bind_Done {A B} (c : M A) (k : A -> M B) e0 w0 b w1 :
  bind c k e0 w0 = (Done b, w1) ->
  exists a w', c e0 w0 = (Done a, w') /\ k a e0 w' = (Done b, w1).
Proof.
  unfold bind. destruct (c e0 w0) as [[a| |msg|sig] w']; intros H; try discriminate. eauto.
Qed.

Lemma defer_Done {A} (d : M unit) (body : M A) e0 w0 a w1 :
  defer d body e0 w0 = (Done a, w1) ->
  exists w', body e0 w0 = (Done a, w') /\ w1 = snd (d e0 w').
Proof.
  unfold defer. destruct (body e0 w0) as [[a'| |msg|sig] w']; intros H; try discriminate.
  injection H as <- <-. eauto.
Qed.

Lemma Stat_run w0 name :
  os.Stat name env w0
    = (Done match os.follow os.MAXSYMLINKS (fs w0) name with
            | Some (_, Some _) => None
            | Some (_, None) => Some (PathError "stat" name ENOENT)
            | None => Some (PathError "stat" name ELOOP)
            end,
       logged w0 [EvStat name]).
Proof.
  unfold os.Stat, bind, emit, get, ret. cbn [fs log signals].
  now destruct (os.follow os.MAXSYMLINKS (fs w0) name) as [[q [node|]]|].
Qed.

Lemma Create_in_place w0 f w' :
  os.Create (boxrc.configPath s) env w0 = (Done (f, None), w') -> in_place s (fs w') f.
Proof.
  unfold os.Create, bind, emit, get, ask, ret, put_fs. cbn [fs log signals].
  destruct (os.follow os.MAXSYMLINKS (fs w0) (boxrc.configPath s))
    as [[q [[data mode|target|]|]]|] eqn:Hf;
    try destruct (os.parent (fs w0) q) as [errno|];
    intros H; try discriminate;
    injection H as <- <-; cbn [fs]; eexists _, _;
    apply (follow_insert_end _ _ _ _ _ _ Hf); discriminate.
Qed.

Lemma WriteString_in_place w0 f h data :
  in_place s (fs w0) f -> in_place s (fs (snd (os.WriteString h data env w0))) f.
Proof.
  intros (old & mode & Hf).
  unfold os.WriteString, bind, emit, get, ret, put_fs. cbn [fs log signals].
  destruct (fs w0 !! h) as [[old' mode'|target|]|] eqn:Hh; cbn [snd fs];
    try (now exists old, mode).
  destruct (decide (h = f)) as [->|Hne].
  - eexists _, _. apply (follow_insert_end _ _ _ _ _ _ Hf). discriminate.
  - exists old, mode. revert Hf. generalize (boxrc.configPath s) as p. generalize os.MAXSYMLINKS as n.
    induction n as [|n IH]; intros p; rewrite !follow_eq;
      (destruct (decide (h = p)) as [->|Hp];
       [rewrite lookup_insert_eq, Hh; intros H; injection H as ? _; congruence
       |rewrite lookup_insert_ne by exact Hp]);
      destruct (fs w0 !! p) as [[d0 m0|t0|]|]; try (intros H; exact H).
    apply IH.
Qed.

Lemma Execute_in_place tpl f to w0 r w' :
  boxrc.Execute tpl f to env w0 = (Done r, w') -> in_place s (fs w0) f -> in_place s (fs w') f.
Proof.
  intros H Hin. destruct tpl as [|script]; unfold boxrc.Execute in H.
  - apply bind_Done in H as ([] & wa & Hw & H). injection H as _ <-.
    replace wa with (snd (os.WriteString f (boxrcScript to) env w0)) by now rewrite Hw.
    now apply WriteString_in_place.
  - apply bind_Done in H as (e0 & wa & Hask & H). injection Hask as <- <-.
    destruct (execute env script to) as [text err].
    apply bind_Done in H as ([] & wb & Hw & H). injection H as _ <-.
    replace wb with (snd (os.WriteString f text env w0)) by now rewrite Hw.
    now apply WriteString_in_place.
Qed.

Lemma Chmod_in_place mode f w0 r w' :
  os.Chmod (boxrc.configPath s) mode env w0 = (Done r, w') ->
  in_place s (fs w0) f -> in_place s (fs w') f.
Proof.
  intros H (data & mode0 & Hf). revert H.
  unfold os.Chmod, bind, emit, get, ret, put_fs. cbn [fs log signals]. rewrite Hf.
  intros H. injection H as _ <-. cbn [fs]. eexists _, _.
  apply (follow_insert_end _ _ _ _ _ _ Hf). discriminate.
Qed.

Lemma Symlink_in_place oldname newname f w0 w' :
  os.Symlink oldname newname env w0 = (Done None, w') ->
  in_place s (fs w0) f -> in_place s (fs w') f.
Proof.
  intros H (data & mode & Hf). revert H.
  unfold os.Symlink, bind, emit, get, ret, put_fs. cbn [fs log signals].
  destruct (fs w0 !! newname) as [node|] eqn:Hnew; [intros H; discriminate|].
  destruct (os.parent (fs w0) newname) as [errno|]; intros H; [discriminate|].
  injection H as <-. cbn [fs]. exists data, mode.
  now apply follow_insert_fresh.
Qed.

Lemma Install_exists_at w0 q node :
  os.follow os.MAXSYMLINKS (fs w0) (boxrc.configPath s) = Some (q, Some node) ->
  boxrc.Install s env w0
    = (Done (Some (ErrInitExists (boxrc.configPath s))),
       logged w0 [EvStat (boxrc.configPath s)]).
Proof.
  intros H. unfold boxrc.Install, bind. now rewrite Stat_run, H.
Qed.

(** After an [Install] that succeeded the descriptor is in place. *)
Lemma Install_success_in_place w1 :
  boxrc.Install s env w = (Done None, w1) -> exists f, in_place s (fs w1) f.
Proof.
  intros H. unfold boxrc.Install in H.
  apply bind_Done in H as (err & wa & _ & H).
  destruct err as [_|]; [|discriminate].
  apply bind_Done in H as ([f err] & wb & Hcreate & H).
  destruct err as [e|]; [discriminate|].
  apply Create_in_place in Hcreate.
  apply defer_Done in H as (wc & H & ->).
  exists f. unfold os.Close, emit. cbn [snd fs].
  apply bind_Done in H as ([path err] & wd & Hexec & H).
  unfold boxrc.execPath, bind, ask, ret in Hexec. injection Hexec as _ <-.
  destruct err as [e|]; [discriminate|].
  apply bind_Done in H as (tpl & we & Htpl & H).
  assert (we = wb) as ->.
  { unfold boxrc.template in Htpl.
    destruct (negb _) in Htpl; [|now injection Htpl].
    unfold bind, ask, ret, panic in Htpl.
    destruct (parses env _) in Htpl; [now injection Htpl | discriminate]. }
  apply bind_Done in H as (err & wf & Hexecute & H).
  apply (Execute_in_place _ _ _ _ _ _ Hexecute) in Hcreate.
  destruct err as [e|]; [discriminate|].
  apply bind_Done in H as (err & wg & Hchmod & H).
  apply (Chmod_in_place _ _ _ _ _ Hchmod) in Hcreate.
  destruct err as [e|]; [discriminate|].
  apply bind_Done in H as (err & wh & Hsymlink & H).
  destruct err as [e|]; [discriminate|].
  apply (Symlink_in_place _ _ _ _ _ Hsymlink) in Hcreate.
  now injection H as <-.
Qed.

(** C3. When the config path resolves to a node that exists, [Install]
    returns the already-exists error after the one stat call: the files are
    what they were and nothing is created, written, chmodded or linked.  So
    an [Install] that follows one that succeeded fails this way and leaves
    the descriptor as the first wrote it. *)
Theorem Install_already_installed :
  let confPath := boxrc.configPath s in
  (forall q node,
     os.follow os.MAXSYMLINKS (fs w) confPath = Some (q, Some node) ->
     boxrc.Install s env w
       = (Done (Some (ErrInitExists confPath)), logged w [EvStat confPath]))
  /\ (forall w1,
        boxrc.Install s env w = (Done None, w1) ->
        boxrc.Install s env w1
          = (Done (Some (ErrInitExists confPath)), logged w1 [EvStat confPath])).
Proof.
  intros confPath. split.
  - intros q node. apply Install_exists_at.
  - intros w1 H. destruct (Install_success_in_place _ H) as (f & data & mode & Hf).
    exact (Install_exists_at _ _ _ Hf).
Qed.

End Installing.

(** An install from nothing: the script at the config path, executable, and
    the link to it. *)
Example Install_from_nothing :
  boxrc.Install (svc None None) env0 world0 = (Done None, world_after_install)
  /\ fs world_after_install !! "/etc/boxinit.d/65svc"
     = Some (RegularFile (boxrcScript to0) (7 * 64 + 5 * 8 + 5))
  /\ fs world_after_install !! "/etc/boxrc.d/65svc" = Some (SymlinkTo "/etc/boxinit.d/65svc")
  /\ log world_after_install
     = [EvStat "/etc/boxinit.d/65svc"; EvCreate "/etc/boxinit.d/65svc";
        EvWrite "/etc/boxinit.d/65svc" (boxrcScript to0);
        EvChmod "/etc/boxinit.d/65svc" (7 * 64 + 5 * 8 + 5);
        EvSymlink "/etc/boxinit.d/65svc" "/etc/boxrc.d/65svc";
        EvClose "/etc/boxinit.d/65svc"].
Proof. repeat split; vm_compute; reflexivity. Qed.

(** With a script of the operator's, that script is what is written. *)
Example Install_custom_script :
  fs (snd (boxrc.Install (svc_custom ("#!/bin/sh" +:+ nl +:+ "exec /usr/bin/svc" +:+ nl))
             env0 world0))
    !! "/etc/boxinit.d/65svc"
  = Some (RegularFile ("#!/bin/sh" +:+ nl +:+ "exec /usr/bin/svc" +:+ nl) (7 * 64 + 5 * 8 + 5)).
Proof. vm_compute. reflexivity. Qed.

Lemma Install_already_installed_witness :
  boxrc.Install (svc None None) env0 world_installed
    = (Done (Some (ErrInitExists "/etc/boxinit.d/65svc")),
       logged world_installed [EvStat "/etc/boxinit.d/65svc"])
  /\ boxrc.Install (svc None None) env0 world_after_install
     = (Done (Some (ErrInitExists "/etc/boxinit.d/65svc")),
        logged world_after_install [EvStat "/etc/boxinit.d/65svc"]).
Proof.
  split.
  - apply (proj1 (Install_already_installed (svc None None) env0 world_installed)
             "/etc/boxinit.d/65svc" (RegularFile ("#!/bin/sh" +:+ nl) (7 * 64 + 5 * 8 + 5))).
    vm_compute. reflexivity.
  - apply (proj2 (Install_already_installed (svc None None) env0 world0)).
    vm_compute. reflexivity.
Defined.

(** ** The generated script and the shell *)

(** Arguments without blanks or quotes reach the program as they are. *)
Example script_argv_plain :
  script_argv {| to_Name := "svc"; to_DisplayName := "Service"; to_Description := "A service";
                 to_Arguments := ["--flag"; "value"];
                 to_WorkingDirectory := EmptyString; to_Path := "/usr/bin/svc";
                 to_LogDirectory := "/var/log" |}
  = ["/usr/bin/svc"; "--flag"; "value"].
Proof. reflexivity. Qed.

(** C9. For the arguments --flag and value-with-spaces the rendered [cmd]
    line nests the quotes of [tf_cmd] inside the quotes of the assignment.
    The shell reads it as the assignment of a value cut at the first blank
    of the argument, followed by two more words, so [cmd] is not set in the
    script and [$cmd] expands to nothing; and had the value been kept
    whole, its unquoted expansion would still split the argument at its
    blanks, with the quotes left in the fields. *)
Theorem script_cmd_line_loses_argument :
  let line := nth 2 (boxrcScript_lines to0) EmptyString in
  line = "cmd=" +:+ dq +:+ "/usr/bin/svc " +:+ dq +:+ "--flag" +:+ dq +:+ " "
         +:+ dq +:+ "value with spaces" +:+ dq +:+ dq
  /\ nth 24 (boxrcScript_lines to0) EmptyString
     = "            $cmd >> " +:+ dq +:+ "$stdout_log" +:+ dq +:+ " 2>> "
       +:+ dq +:+ "$stderr_log" +:+ dq +:+ " &"
  /\ sh.words line = ["cmd=/usr/bin/svc --flag value"; "with"; "spaces"]
  /\ script_argv to0 = []
  /\ sh.fields ("/usr/bin/svc " +:+ tf_cmd "--flag" +:+ " " +:+ tf_cmd "value with spaces")
     = ["/usr/bin/svc"; dq +:+ "--flag" +:+ dq; dq +:+ "value"; "with"; "spaces" +:+ dq].
Proof. repeat split; reflexivity. Qed.

(** ** More on the detector *)

Section DetectorEdges.

Lemma binaryName_parenthesised_witness :
  binaryName host_shell 4242 = Returns ("bash", None).
Proof.
  apply (binaryName_parenthesised host_shell 4242 "4242 " "bash"
           (" S 1 4242 4242 0 -1 4194560" +:+ nl)); reflexivity.
Defined.

(** A record with no opening parenthesis: the name starts at the first
    byte and ends before the first closing parenthesis. *)
Theorem binaryName_no_opening h pid name post :
  files h (statPath pid) = Bytes (name +:+ ")" +:+ post) None ->
  IndexRune (name +:+ ")" +:+ post) "("%char = -1 ->
  IndexRune name ")"%char = -1 ->
  binaryName h pid = Returns (name, None).
Proof.
  intros Hf Hopen Hname. rewrite (binaryName_readable _ _ _ Hf). cbv zeta.
  rewrite Hopen. change (Z.to_nat (-1 + 1)) with O. cbn [drop_bytes].
  change (")" +:+ post) with (String ")"%char post).
  rewrite (IndexRune_first name _ _ Hname).
  pose proof (len_nonneg name) as Hl.
  destruct (Z.ltb_spec (len name) 0) as [|_]; [lia|].
  unfold len. rewrite Nat2Z.id, take_bytes_app. reflexivity.
Qed.

Lemma binaryName_no_opening_witness :
  binaryName host_no_open 4242 = Returns ("systemd", None).
Proof.
  apply (binaryName_no_opening host_no_open 4242 "systemd" " S 1 4242"); reflexivity.
Defined.

(** A byte found at [k] cuts the string there. *)
Lemma IndexRune_cut s c k :
  IndexRune s c = Z.of_nat k ->
  s = take_bytes k s +:+ String c (drop_bytes (S k) s).
Proof.
  revert k. induction s as [|b s IH]; intros k; simpl; [lia|].
  destruct (Ascii.eqb_spec b c) as [->|Hbc].
  - intros H. now replace k with O by lia.
  - pose proof (IndexRune_ge s c) as Hge.
    destruct (Z.ltb_spec (IndexRune s c) 0) as [|Hpos]; [lia|].
    destruct k as [|k]; [lia|]. intros Hk. simpl.
    f_equal. apply IH. lia.
Qed.

(** [isInteractive] answers false in exactly two cases, both without a
    detected container: the parent is pid 1, or the parent's record, read in
    full, continues after its first opening parenthesis (from its start when
    it has none) with systemd and a closing parenthesis. *)
Theorem isInteractive_false_iff (h : Host) :
  isInteractive h = Returns false <->
  existsb has_marker (scanned (files h cgroupFile)) = false
  /\ (Getppid h = 1
      \/ exists data post,
           files h (statPath (Getppid h)) = Bytes data None
           /\ drop_bytes (Z.to_nat (IndexRune data "("%char + 1)) data = "systemd)" +:+ post).
Proof.
  destruct (isInContainer_spec (files h cgroupFile)) as [Hfst Hsnd].
  unfold isInteractive.
  destruct (isInContainer (files h cgroupFile)) as [inContainer err].
  simpl in Hfst, Hsnd. rewrite <- Hfst. clear Hfst.
  assert (Hgate : match err with Some _ => false | None => inContainer end = inContainer).
  { destruct inContainer; [now rewrite Hsnd | now destruct err]. }
  rewrite Hgate. clear Hgate Hsnd err.
  destruct inContainer.
  { split; [discriminate | intros [H _]; discriminate]. }
  destruct (Z.eqb_spec (Getppid h) 1) as [Hpp|Hpp].
  { split; [intros _; split; [reflexivity | now left] | reflexivity]. }
  destruct (files h (statPath (Getppid h))) as [e|data [e|]] eqn:Hf.
  - rewrite (binaryName_unreadable h _ EmptyString e) by now rewrite Hf.
    split; [discriminate|]. intros (_ & [H | (data & post & H & _)]); [contradiction | discriminate].
  - rewrite (binaryName_unreadable h _ data e) by now rewrite Hf.
    split; [discriminate|]. intros (_ & [H | (data' & post & H & _)]); [contradiction | discriminate].
  - rewrite (binaryName_readable h _ data Hf). cbv zeta.
    set (tail := drop_bytes (Z.to_nat (IndexRune data "("%char + 1)) data).
    pose proof (IndexRune_ge tail ")"%char) as Hge.
    destruct (Z.ltb_spec (IndexRune tail ")"%char) 0) as [Hno|Hyes].
    + split; [discriminate|].
      intros (_ & [H | (data' & post & Hd & Ht)]); [contradiction|].
      injection Hd as <-. fold tail in Ht. rewrite Ht in Hno. simpl in Hno. lia.
    + split.
      * intros H. split; [reflexivity|]. right.
        injection H as H. apply negb_false_iff, String.eqb_eq in H.
        exists data, (drop_bytes (S (Z.to_nat (IndexRune tail ")"%char))) tail).
        split; [reflexivity|]. fold tail.
        rewrite (IndexRune_cut tail ")"%char (Z.to_nat (IndexRune tail ")"%char))) at 1 by lia.
        rewrite H. reflexivity.
      * intros (_ & [H | (data' & post & Hd & Ht)]); [contradiction|].
        injection Hd as <-. fold tail in Ht. rewrite Ht. reflexivity.
Qed.

(** [isInContainer] never reports a container together with an error, and
    a cgroup file that cannot be opened gives no container and the error of
    the open. *)
Theorem isInContainer_errors (cgroup : File) :
  (fst (isInContainer cgroup) = true -> snd (isInContainer cgroup) = None)
  /\ (forall e, snd (isInContainer cgroup) = Some e -> fst (isInContainer cgroup) = false)
  /\ (forall e, cgroup = NoFile e -> isInContainer cgroup = (false, Some e)).
Proof.
  destruct (isInContainer_spec cgroup) as [_ H]. split; [exact H|]. split.
  - intros e He. destruct (fst (isInContainer cgroup)); [|reflexivity].
    rewrite H in He by reflexivity. discriminate.
  - now intros e ->.
Qed.

Lemma statPath_not_cgroupFile pid : String.eqb (statPath pid) cgroupFile = false.
Proof.
  apply String.eqb_neq. intros H.
  assert (Hs : HasSuffix (statPath pid) "/stat" = true).
  { apply HasSuffix_spec. exists ("/proc/" +:+ NilZero.string_of_int (Z.to_int pid)).
    unfold statPath. now rewrite app_assoc_s. }
  rewrite H in Hs. discriminate Hs.
Qed.

(** An error of [isInContainer] counts as no container: when the cgroup
    file cannot be opened or its scan ends in an error, [isInteractive]
    answers as it does on the same host with an empty cgroup file. *)
Theorem isInteractive_container_error (h : Host) (e : error) :
  snd (isInContainer (files h cgroupFile)) = Some e ->
  isInteractive h = isInteractive (with_cgroup h (Bytes EmptyString None)).
Proof.
  intros H. unfold isInteractive at 1.
  destruct (isInContainer (files h cgroupFile)) as [inContainer err].
  simpl in H. rewrite H.
  unfold isInteractive, binaryName, with_cgroup. cbn [files Getppid].
  rewrite String.eqb_refl, statPath_not_cgroupFile. reflexivity.
Qed.

Lemma isInteractive_container_error_witness :
  isInteractive host_no_cgroup = Returns false
  /\ isInteractive (host (cgroup_long 65536) 1 (Bytes EmptyString None)) = Returns false.
Proof.
  split.
  - rewrite (isInteractive_container_error host_no_cgroup (PathError "open" cgroupFile ENOENT) eq_refl).
    reflexivity.
  - rewrite (isInteractive_container_error (host (cgroup_long 65536) 1 (Bytes EmptyString None))
               ErrTooLong); [reflexivity|].
    vm_compute. reflexivity.
Defined.

End DetectorEdges.

(** ** The template helpers and the shell *)

Section Quoting.

Implicit Types (s acc rest : string) (c : ascii).

Lemma push_Some acc c : sh.push (Some acc) c = Some (acc +:+ String c EmptyString).
Proof. reflexivity. Qed.

Lemma app_snoc acc c s : (acc +:+ String c EmptyString) +:+ s = acc +:+ String c s.
Proof. now rewrite app_assoc_s. Qed.

(** Inside double quotes the shell reads back what [tf_cmd] escaped. *)
Lemma words_from_quoted s : forall acc rest,
  IndexRune s "\"%char = -1 ->
  sh.words_from sh.InDouble (Some acc) (ReplaceAll s "034"%char ("\" +:+ dq) +:+ rest)
    = sh.words_from sh.InDouble (Some (acc +:+ s)) rest.
Proof.
  induction s as [|b s IH]; intros acc rest Hs.
  - simpl. now rewrite app_empty_r.
  - simpl in Hs. destruct (Ascii.eqb_spec b "\"%char) as [|Hb]; [discriminate|].
    assert (Hs' : IndexRune s "\"%char = -1).
    { pose proof (IndexRune_ge s "\"%char). destruct (Z.ltb_spec (IndexRune s "\"%char) 0); lia. }
    cbn [ReplaceAll]. destruct (Ascii.eqb_spec b "034"%char) as [->|Hq].
    + rewrite app_assoc_s. cbn. change (String "\"%char dq) with ("\" +:+ dq).
      rewrite push_Some, IH by exact Hs'. now rewrite app_snoc.
    + rewrite app_assoc_s. cbn [String.append sh.words_from].
      apply Ascii.eqb_neq in Hq, Hb. rewrite Hq, Hb.
      rewrite push_Some, IH by exact Hs'. now rewrite app_snoc.
Qed.

(** [tf_cmd] and the shell: a word without backslash, dollar sign or
    backquote, wrapped by [tf_cmd], is read back by a POSIX shell as that
    one word, whatever blanks and double quotes it holds. *)
Theorem tf_cmd_round_trip s :
  IndexRune s "\"%char = -1 ->
  IndexRune s "$"%char = -1 ->
  IndexRune s "`"%char = -1 ->
  sh.words (tf_cmd s) = [s].
Proof.
  intros Hs _ _. unfold sh.words, tf_cmd.
  change (sh.words_from sh.Unquoted None
            (dq +:+ ReplaceAll s "034"%char ("\" +:+ dq) +:+ dq))
    with (sh.words_from sh.InDouble (Some EmptyString)
            (ReplaceAll s "034"%char ("\" +:+ dq) +:+ dq)).
  rewrite (words_from_quoted s EmptyString dq Hs). reflexivity.
Qed.

Lemma tf_cmd_round_trip_witness :
  sh.words (tf_cmd ("say " +:+ dq +:+ "hello  world" +:+ dq)) = ["say " +:+ dq +:+ "hello  world" +:+ dq].
Proof. apply tf_cmd_round_trip; reflexivity. Defined.

(** [tf_cmdEscape] leaves no space in its result, turns every space into
    four bytes, and leaves a word without spaces as it is. *)
Lemma tf_cmdEscape_no_space s :
  IndexRune (tf_cmdEscape s) " "%char = -1
  /\ len s <= len (tf_cmdEscape s) <= 4 * len s
  /\ (IndexRune s " "%char = -1 -> tf_cmdEscape s = s).
Proof.
  unfold tf_cmdEscape. induction s as [|b s (IH1 & IH2 & IH3)].
  - split; [reflexivity | split; [unfold len; simpl; lia | reflexivity]].
  - assert (Hl : len (String b s) = len s + 1) by (unfold len; simpl String.length; lia).
    cbn [ReplaceAll]. destruct (Ascii.eqb_spec b " "%char) as [->|Hb].
    + split; [|split].
      * cbn. rewrite IH1. reflexivity.
      * rewrite len_app, Hl. change (len "\x20") with 4. lia.
      * cbn. discriminate.
    + split; [|split].
      * cbn. apply Ascii.eqb_neq in Hb. rewrite Hb, IH1. reflexivity.
      * rewrite len_app, Hl. change (len (String b EmptyString)) with 1. lia.
      * cbn. apply Ascii.eqb_neq in Hb. rewrite Hb. intros H.
        rewrite IH3; [reflexivity|].
        pose proof (IndexRune_ge s " "%char). destruct (Z.ltb_spec (IndexRune s " "%char) 0); lia.
Qed.

Lemma ReplaceAll_app a b old new :
  ReplaceAll (a +:+ b) old new = ReplaceAll a old new +:+ ReplaceAll b old new.
Proof.
  induction a as [|c a IH]; [reflexivity|].
  change (String c a +:+ b) with (String c (a +:+ b)).
  cbn [ReplaceAll]. now rewrite IH, app_assoc_s.
Qed.

(** [tf_cmdEscape] writes the four bytes backslash, x, 2, 0 in the place of
    every space and changes nothing else: words without a space, joined by
    single spaces, come out joined by those four bytes, and no space is
    left in the result. *)
Theorem tf_cmdEscape_words (ws : list string) :
  (forall word, In word ws -> IndexRune word " "%char = -1) ->
  tf_cmdEscape (String.concat " " ws) = String.concat "\x20" ws
  /\ IndexRune (tf_cmdEscape (String.concat " " ws)) " "%char = -1.
Proof.
  intros H. split; [|apply tf_cmdEscape_no_space].
  induction ws as [|x ws IH]; [reflexivity|].
  assert (Hx : tf_cmdEscape x = x)
    by (apply (proj2 (proj2 (tf_cmdEscape_no_space x))), H; now left).
  destruct ws as [|y ws]; [exact Hx|].
  change (String.concat " " (x :: y :: ws)) with (x +:+ " " +:+ String.concat " " (y :: ws)).
  change (String.concat "\x20" (x :: y :: ws))
    with (x +:+ "\x20" +:+ String.concat "\x20" (y :: ws)).
  unfold tf_cmdEscape in *. rewrite !ReplaceAll_app, Hx, IH.
  - reflexivity.
  - intros word Hw. apply H. now right.
Qed.

Lemma tf_cmdEscape_words_witness :
  tf_cmdEscape "/opt/my service  run --name=a b"
  = "/opt/my\x20service\x20\x20run\x20--name=a\x20b"
  /\ IndexRune (tf_cmdEscape "/opt/my service  run --name=a b") " "%char = -1.
Proof.
  apply (tf_cmdEscape_words ["/opt/my"; "service"; EmptyString; "run"; "--name=a"; "b"]).
  intros word Hw; repeat (destruct Hw as [<-|Hw]; [reflexivity|]); destruct Hw.
Defined.

End Quoting.

(** ** The generated script on plain words *)

Section PlainWords.

Implicit Types (a acc rest : string) (c : ascii) (args : list string).

















End PlainWords.

(** ** More on the invoker and the control methods *)

Section ControlEdges.

Variables (s : boxrc.t) (env : Env) (w : World).

(** What [runCommand] gives for each answer of the command. *)
Lemma runCommand_result_at command (readStdout : bool) arguments :
  exists code out err,
    runCommand command readStdout arguments env w
      = (Done (code, out, err), logged w [EvCommand command arguments])
    /\ (err = None ->
        code = 0 /\ exists stdout errOut,
          process env (log w) command arguments = Waited None stdout errOut)
    /\ (code <> 0 -> exists ws, err = Some (ExitError ws) /\ code = ExitStatus ws)
    /\ (readStdout = false -> out = EmptyString).
Proof.
  destruct (process env (log w) command arguments) as [e|[e|] stdout errOut] eqn:H.
  - rewrite (runCommand_start_fails _ _ _ _ _ _ H). eexists _, _, _.
    split; [reflexivity|]. split; [discriminate|]. split; [intros []; reflexivity | reflexivity].
  - rewrite (runCommand_wait_fails _ _ _ _ _ _ _ _ H).
    destruct e; eexists _, _, _; (split; [reflexivity|]); (split; [discriminate|]);
      (split; [| now intros ->]); try (intros []; reflexivity).
    intros _. now exists ws.
  - rewrite (runCommand_zero _ _ _ _ _ _ _ H).
    match goal with |- context [if ?c then _ else _] => destruct c end;
      eexists _, _, _; (split; [reflexivity|]).
    + split; [discriminate|]. split; [intros []; reflexivity | reflexivity].
    + split; [intros _; split; [reflexivity | now exists stdout, errOut]|].
      split; [intros []; reflexivity | now intros ->].
Qed.

(** What [runCommand] returns, when it returns: the command was run once
    and nothing else was done; no error means exit status zero of a process
    that ended with a zero exit; a status other than zero comes only with
    the exit error it was read from; without [readStdout] no output is
    returned. *)
Theorem runCommand_result command (readStdout : bool) arguments code out err w' :
  runCommand command readStdout arguments env w = (Done (code, out, err), w') ->
  w' = logged w [EvCommand command arguments]
  /\ (err = None ->
      code = 0 /\ exists stdout errOut,
        process env (log w) command arguments = Waited None stdout errOut)
  /\ (code <> 0 -> exists ws, err = Some (ExitError ws) /\ code = ExitStatus ws)
  /\ (readStdout = false -> out = EmptyString).
Proof.
  intros H.
  destruct (runCommand_result_at command readStdout arguments)
    as (code0 & out0 & err0 & Hrun & Hrest).
  rewrite Hrun in H. injection H as <- <- <- <-.
  split; [reflexivity | exact Hrest].
Qed.

(** The stop and start commands of the backend succeed exactly when the
    script ends with a zero exit, whatever it wrote to standard error. *)
Theorem Start_Stop_succeed_iff :
  (boxrc.Stop s env w = (Done None, logged w [EvCommand (boxrc.configPath s) ["stop"]])
   <-> exists stdout errOut,
         process env (log w) (boxrc.configPath s) ["stop"] = Waited None stdout errOut)
  /\ (boxrc.Start s env w = (Done None, logged w [EvCommand (boxrc.configPath s) ["start"]])
      <-> exists stdout errOut,
            process env (log w) (boxrc.configPath s) ["start"] = Waited None stdout errOut).
Proof.
  assert (H : forall arguments,
             run (boxrc.configPath s) arguments env w
               = (Done None, logged w [EvCommand (boxrc.configPath s) arguments])
             <-> exists stdout errOut,
                   process env (log w) (boxrc.configPath s) arguments = Waited None stdout errOut).
  { intros arguments. unfold run, bind.
    destruct (process env (log w) (boxrc.configPath s) arguments)
      as [e|[e|] stdout errOut] eqn:H.
    - rewrite (runCommand_start_fails _ _ _ _ _ _ H).
      split; [discriminate | intros (? & ? & ?); discriminate].
    - rewrite (runCommand_wait_fails _ _ _ _ _ _ _ _ H).
      split; [destruct e; discriminate | intros (? & ? & ?); discriminate].
    - rewrite (runCommand_zero _ _ _ _ _ _ _ H), configPath_not_launchctl.
      split; [now exists stdout, errOut | reflexivity]. }
  split; apply H.
Qed.

(** What [Status] gives for each answer of the script. *)
Lemma Status_unknown_iff_error_at :
  exists st err,
    boxrc.Status s env w
      = (Done (st, err), logged w [EvCommand (boxrc.configPath s) ["status"]])
    /\ (st = StatusUnknown <-> err <> None).
Proof.
  unfold boxrc.Status, runWithOutput, bind.
  destruct (process env (log w) (boxrc.configPath s) ["status"])
    as [e|[e|] stdout errOut] eqn:H.
  - rewrite (runCommand_start_fails _ _ _ _ _ _ H). eexists _, _.
    split; [reflexivity|]. split; [discriminate | reflexivity].
  - rewrite (runCommand_wait_fails _ _ _ _ _ _ _ _ H).
    destruct e; eexists _, _; (split; [reflexivity|]); (split; [discriminate | reflexivity]).
  - rewrite (runCommand_zero _ _ _ _ _ _ _ H), configPath_not_launchctl.
    cbn [andb]. cbv beta iota.
    destruct (HasPrefix stdout "Running"); [|destruct (HasPrefix stdout "Stopped")];
      eexists _, _; (split; [reflexivity|]); split; try discriminate; try reflexivity;
      intros Hn; now destruct Hn.
Qed.

(** What [Status] returns, when it returns: the status is unknown exactly
    when an error comes with it, and only the status command was run. *)
Theorem Status_unknown_iff_error st err w' :
  boxrc.Status s env w = (Done (st, err), w') ->
  (st = StatusUnknown <-> err <> None)
  /\ w' = logged w [EvCommand (boxrc.configPath s) ["status"]].
Proof.
  intros H.
  destruct Status_unknown_iff_error_at as (st0 & err0 & Hrun & Hiff).
  rewrite Hrun in H. injection H as <- <- <-.
  split; [exact Hiff | reflexivity].
Qed.

(** With a run-wait option of the caller's, [Run] runs that action between
    the two callbacks in place of the wait for a signal: when the action
    returns, Stop is invoked and its result returned; when it blocks, [Run]
    blocks before Stop. *)
Theorem Run_custom_wait (wait : M unit) :
  optionRunWait (Option (boxrc.config s)) = Some wait ->
  Interface.Start (boxrc.i s) (log w) = None ->
  (forall w2,
     wait env (logged w [EvInterfaceStart]) = (Done tt, w2) ->
     boxrc.Run s env w
       = (Done (Interface.Stop (boxrc.i s) (log w2)), logged w2 [EvInterfaceStop]))
  /\ (forall w2,
        wait env (logged w [EvInterfaceStart]) = (Blocked, w2) ->
        boxrc.Run s env w = (Blocked, w2)).
Proof.
  intros Hopt Hstart.
  split; intros w2 Hwait;
    unfold boxrc.Run, boxrc.call, bind, get, emit, ret; rewrite Hstart, Hopt;
    unfold KeyValue_funcSingle; fold (logged w [EvInterfaceStart]); now rewrite Hwait.
Qed.

End ControlEdges.

Lemma Run_custom_wait_witness :
  boxrc.Run (svc_wait (time.Sleep time.Millisecond) (Some (UserError "flush failed")))
    env0 (world_with_signals [])
  = (Done (Some (UserError "flush failed")),
     logged (world_with_signals []) [EvInterfaceStart; EvSleep 1000000; EvInterfaceStop])
  /\ boxrc.Run (svc_wait block None) env0 (world_with_signals [SIGTERM])
     = (Blocked, logged (world_with_signals [SIGTERM]) [EvInterfaceStart]).
Proof.
  split.
  - rewrite (proj1 (Run_custom_wait (svc_wait (time.Sleep time.Millisecond)
                                       (Some (UserError "flush failed")))
                      env0 (world_with_signals []) _ eq_refl eq_refl) _ eq_refl).
    reflexivity.
  - apply (proj2 (Run_custom_wait (svc_wait block None) env0 (world_with_signals [SIGTERM])
                    _ eq_refl eq_refl)).
    reflexivity.
Defined.

Lemma runCommand_result_witness :
  logged world0 [EvCommand "/etc/boxinit.d/65svc" ["status"]]
  = logged world0 [EvCommand "/etc/boxinit.d/65svc" ["status"]]
  /\ exists ws, Some (ExitError (Exited 3)) = Some (ExitError ws) /\ 3 = ExitStatus ws.
Proof.
  destruct (runCommand_result (script_exits 3 "Stopped") world0
              "/etc/boxinit.d/65svc" false ["status"]
              3 EmptyString (Some (ExitError (Exited 3)))
              (logged world0 [EvCommand "/etc/boxinit.d/65svc" ["status"]]) eq_refl)
    as (Hw & _ & Hcode & _).
  split; [exact Hw | apply Hcode; discriminate].
Defined.

Lemma Status_unknown_iff_error_witness :
  (StatusUnknown = StatusUnknown
   <-> Some (ErrFailed "/etc/boxinit.d/65svc" (ExecError "/etc/boxinit.d/65svc" ENOENT)) <> None)
  /\ logged world0 [EvCommand "/etc/boxinit.d/65svc" ["status"]]
     = logged world0 [EvCommand "/etc/boxinit.d/65svc" ["status"]].
Proof.
  apply (Status_unknown_iff_error (svc None None) script_missing world0
           StatusUnknown
           (Some (ErrFailed "/etc/boxinit.d/65svc" (ExecError "/etc/boxinit.d/65svc" ENOENT)))
           (logged world0 [EvCommand "/etc/boxinit.d/65svc" ["status"]])).
  reflexivity.
Defined.

Example runCommand_killed :
  fst (runCommand "/etc/boxinit.d/65svc" true ["stop"] script_killed world0)
  = Done (-1, "partial", Some (ExitError (Signaled 9))).
Proof. reflexivity. Qed.

(** ** More on install and uninstall *)

Section InstallEdges.

Variables (s : boxrc.t) (env : Env) (w : World).

Lemma configPath_not_linkPath : boxrc.configPath s <> linkPath s.
Proof. unfold boxrc.configPath, linkPath. simpl. discriminate. Qed.

Lemma follow_absent n (m : gmap string Node) p : m !! p = None -> os.follow n m p = Some (p, None).
Proof. intros H. rewrite follow_eq. now rewrite H. Qed.

Lemma follow_file n (m : gmap string Node) p data mode :
  m !! p = Some (RegularFile data mode) ->
  os.follow n m p = Some (p, Some (RegularFile data mode)).
Proof. intros H. rewrite follow_eq. now rewrite H. Qed.

Lemma bind_run {A B} (c : M A) (k : A -> M B) e0 w0 a w' :
  c e0 w0 = (Done a, w') -> bind c k e0 w0 = k a e0 w'.
Proof. intros H. unfold bind. now rewrite H. Qed.



(** Each call of [os] on a world it succeeds or fails in. *)
Lemma Stat_absent w0 name q :
  os.follow os.MAXSYMLINKS (fs w0) name = Some (q, None) ->
  os.Stat name env w0
    = (Done (Some (PathError "stat" name ENOENT)), logged w0 [EvStat name]).
Proof. intros H. now rewrite Stat_run, H. Qed.

Lemma Create_absent w0 name q :
  os.follow os.MAXSYMLINKS (fs w0) name = Some (q, None) ->
  os.parent (fs w0) q = None ->
  os.Create name env w0
    = (Done (q, None),
       {| fs := <[q := RegularFile EmptyString (created_mode env)]> (fs w0);
          log := log w0 ++ [EvCreate name]; signals := signals w0 |}).
Proof.
  intros H Hdir. unfold os.Create, bind, emit, get, ask, ret, put_fs. cbn [fs log signals].
  now rewrite H, Hdir.
Qed.

Lemma Create_no_parent w0 name q errno :
  os.follow os.MAXSYMLINKS (fs w0) name = Some (q, None) ->
  os.parent (fs w0) q = Some errno ->
  os.Create name env w0
    = (Done (EmptyString, Some (PathError "open" name errno)), logged w0 [EvCreate name]).
Proof.
  intros H Hdir. unfold os.Create, bind, emit, get, ask, ret. cbn [fs log signals].
  now rewrite H, Hdir.
Qed.


Lemma WriteString_file w0 f data old mode :
  fs w0 !! f = Some (RegularFile old mode) ->
  os.WriteString f data env w0
    = (Done tt,
       {| fs := <[f := RegularFile (old +:+ data) mode]> (fs w0);
          log := log w0 ++ [EvWrite f data]; signals := signals w0 |}).
Proof.
  intros H. unfold os.WriteString, bind, emit, get, ret, put_fs. cbn [fs log signals].
  now rewrite H.
Qed.

Lemma Chmod_file w0 name mode q data mode0 :
  os.follow os.MAXSYMLINKS (fs w0) name = Some (q, Some (RegularFile data mode0)) ->
  os.Chmod name mode env w0
    = (Done None,
       {| fs := <[q := RegularFile data mode]> (fs w0);
          log := log w0 ++ [EvChmod name mode]; signals := signals w0 |}).
Proof.
  intros H. unfold os.Chmod, bind, emit, get, ret, put_fs. cbn [fs log signals].
  now rewrite H.
Qed.

Lemma Symlink_free w0 oldname newname :
  fs w0 !! newname = None ->
  os.parent (fs w0) newname = None ->
  os.Symlink oldname newname env w0
    = (Done None,
       {| fs := <[newname := SymlinkTo oldname]> (fs w0);
          log := log w0 ++ [EvSymlink oldname newname]; signals := signals w0 |}).
Proof.
  intros H Hdir. unfold os.Symlink, bind, emit, get, ret, put_fs. cbn [fs log signals].
  now rewrite H, Hdir.
Qed.

Lemma Symlink_no_parent w0 oldname newname errno :
  fs w0 !! newname = None ->
  os.parent (fs w0) newname = Some errno ->
  os.Symlink oldname newname env w0
    = (Done (Some (LinkError "symlink" oldname newname errno)),
       logged w0 [EvSymlink oldname newname]).
Proof.
  intros H Hdir. unfold os.Symlink, bind, emit, get, ret. cbn [fs log signals].
  now rewrite H, Hdir.
Qed.

Lemma Symlink_taken w0 oldname newname node :
  fs w0 !! newname = Some node ->
  os.Symlink oldname newname env w0
    = (Done (Some (LinkError "symlink" oldname newname EEXIST)),
       logged w0 [EvSymlink oldname newname]).
Proof.
  intros H. unfold os.Symlink, bind, emit, get, ret. cbn [fs log signals].
  now rewrite H.
Qed.

Lemma Remove_present w0 name node :
  fs w0 !! name = Some node ->
  os.Remove name env w0
    = (Done None,
       {| fs := delete name (fs w0); log := log w0 ++ [EvRemove name];
          signals := signals w0 |}).
Proof.
  intros H. unfold os.Remove, bind, emit, get, ret, put_fs. cbn [fs log signals].
  now rewrite H.
Qed.

Lemma Remove_absent w0 name :
  fs w0 !! name = None ->
  os.Remove name env w0
    = (Done (Some (PathError "remove" name ENOENT)), logged w0 [EvRemove name]).
Proof.
  intros H. unfold os.Remove, bind, emit, get, ret. cbn [fs log signals].
  now rewrite H.
Qed.



Lemma execPath_run w0 : boxrc.execPath s env w0 = (Done (env_execPath env), w0).
Proof. reflexivity. Qed.



(** Runs the first call of a sequence with the lemma [lem] gives for the
    world it starts in. *)
Ltac step lem :=
  match goal with
  | |- context [bind ?c ?k env ?W] =>
      let p := lem W in rewrite (bind_run c k env W _ _ p)
  end.





(** Without the directory of the descriptors nothing is created: [Install]
    returns the error of the create call and the files are what they were. *)
Lemma Install_no_directory errno :
  fs w !! boxrc.configPath s = None ->
  os.parent (fs w) (boxrc.configPath s) = Some errno ->
  boxrc.Install s env w
    = (Done (Some (PathError "open" (boxrc.configPath s) errno)),
       logged w [EvStat (boxrc.configPath s); EvCreate (boxrc.configPath s)]).
Proof.
  intros Hconf Hdir.
  pose proof (follow_absent os.MAXSYMLINKS _ _ Hconf) as Hf.
  unfold boxrc.Install. cbv zeta.
  rewrite (bind_run _ _ _ _ _ _ (Stat_absent w _ _ Hf)). cbv beta iota.
  rewrite (bind_run _ _ _ _ _ _
             (Create_no_parent (logged w [EvStat (boxrc.configPath s)]) _ _ _ Hf Hdir)).
  cbv beta iota. unfold ret, logged. cbn [fs log signals]. now rewrite <- app_assoc.
Qed.

(** The outcomes of [Uninstall] on any world. *)
Lemma Uninstall_cases_at w0 :
  (fs w0 !! boxrc.configPath s = None ->
   boxrc.Uninstall s env w0
     = (Done (Some (PathError "remove" (boxrc.configPath s) ENOENT)),
        logged w0 [EvRemove (boxrc.configPath s)]))
  /\ (forall node,
        fs w0 !! boxrc.configPath s = Some node ->
        fs w0 !! linkPath s = None ->
        boxrc.Uninstall s env w0
          = (Done (Some (PathError "remove" (linkPath s) ENOENT)),
             {| fs := delete (boxrc.configPath s) (fs w0);
                log := log w0 ++ [EvRemove (boxrc.configPath s); EvRemove (linkPath s)];
                signals := signals w0 |}))
  /\ (forall node link,
        fs w0 !! boxrc.configPath s = Some node ->
        fs w0 !! linkPath s = Some link ->
        boxrc.Uninstall s env w0
          = (Done None,
             {| fs := delete (linkPath s) (delete (boxrc.configPath s) (fs w0));
                log := log w0 ++ [EvRemove (boxrc.configPath s); EvRemove (linkPath s)];
                signals := signals w0 |})).
Proof.
  pose proof configPath_not_linkPath as Hne.
  split; [|split].
  - intros Hconf. unfold boxrc.Uninstall.
    now rewrite (bind_run _ _ _ _ _ _ (Remove_absent w0 _ Hconf)).
  - intros node Hconf Hlink. unfold boxrc.Uninstall.
    rewrite (bind_run _ _ _ _ _ _ (Remove_present w0 _ _ Hconf)). cbv beta iota.
    fold (linkPath s).
    assert (H : delete (boxrc.configPath s) (fs w0) !! linkPath s = None)
      by now rewrite lookup_delete_ne.
    step ltac:(fun W => constr:(Remove_absent W (linkPath s) H)).
    cbv beta iota. unfold ret, logged. cbn [fs log signals]. now rewrite <- app_assoc.
  - intros node link Hconf Hlink. unfold boxrc.Uninstall.
    rewrite (bind_run _ _ _ _ _ _ (Remove_present w0 _ _ Hconf)). cbv beta iota.
    fold (linkPath s).
    assert (H : delete (boxrc.configPath s) (fs w0) !! linkPath s = Some link)
      by now rewrite lookup_delete_ne.
    step ltac:(fun W => constr:(Remove_present W (linkPath s) link H)).
    cbv beta iota. unfold ret. cbn [fs log signals]. now rewrite <- app_assoc.
Qed.


Lemma WriteString_over base w0 data :
  descriptor_over s base (fs w0) ->
  descriptor_over s base (fs (snd (os.WriteString (boxrc.configPath s) data env w0))).
Proof.
  intros (old & mode & H).
  rewrite (WriteString_file w0 _ data old mode) by (rewrite H; apply lookup_insert_eq).
  cbn [snd fs]. rewrite H, insert_insert_eq. now eexists _, _.
Qed.

Lemma Execute_over base tpl to w0 r w' :
  boxrc.Execute tpl (boxrc.configPath s) to env w0 = (Done r, w') ->
  descriptor_over s base (fs w0) -> descriptor_over s base (fs w').
Proof.
  intros H Hin. destruct tpl as [|script]; unfold boxrc.Execute in H.
  - apply bind_Done in H as ([] & wa & Hw & H). injection H as _ <-.
    replace wa with (snd (os.WriteString (boxrc.configPath s) (boxrcScript to) env w0))
      by now rewrite Hw.
    now apply WriteString_over.
  - apply bind_Done in H as (e0 & wa & Hask & H). injection Hask as <- <-.
    destruct (execute env script to) as [text err].
    apply bind_Done in H as ([] & wb & Hw & H). injection H as _ <-.
    replace wb with (snd (os.WriteString (boxrc.configPath s) text env w0)) by now rewrite Hw.
    now apply WriteString_over.
Qed.

Lemma Chmod_over base mode w0 r w' :
  os.Chmod (boxrc.configPath s) mode env w0 = (Done r, w') ->
  descriptor_over s base (fs w0) -> descriptor_over s base (fs w').
Proof.
  intros H (data & mode0 & Hm).
  rewrite (Chmod_file w0 _ mode (boxrc.configPath s) data mode0) in H
    by (rewrite Hm; apply follow_file, lookup_insert_eq).
  injection H as _ <-. cbn [fs]. rewrite Hm, insert_insert_eq. now eexists _, _.
Qed.

Lemma Symlink_done oldname newname w0 w' :
  os.Symlink oldname newname env w0 = (Done None, w') ->
  fs w0 !! newname = None /\ fs w' = <[newname := SymlinkTo oldname]> (fs w0).
Proof.
  destruct (fs w0 !! newname) as [node|] eqn:Hnew.
  - rewrite (Symlink_taken w0 _ _ _ Hnew). discriminate.
  - destruct (os.parent (fs w0) newname) as [errno|] eqn:Hdir.
    + rewrite (Symlink_no_parent w0 _ _ _ Hnew Hdir). discriminate.
    + rewrite (Symlink_free w0 _ _ Hnew Hdir). intros H. injection H as <-. now split.
Qed.

(** What a successful install on a free config path leaves: the files it
    found, a regular file with mode 0755 at the config path and the link to
    it at the link path, which was free. *)
Lemma Install_success_files w1 :
  boxrc.Install s env w = (Done None, w1) ->
  fs w !! boxrc.configPath s = None ->
  fs w !! linkPath s = None
  /\ exists data mode,
       fs w1 = <[linkPath s := SymlinkTo (boxrc.configPath s)]>
                 (<[boxrc.configPath s := RegularFile data mode]> (fs w)).
Proof.
  intros H Hconf.
  pose proof (follow_absent os.MAXSYMLINKS _ _ Hconf) as Hf.
  unfold boxrc.Install in H. cbv zeta in H.
  rewrite (bind_run _ _ _ _ _ _ (Stat_absent w _ _ Hf)) in H. cbv beta iota in H.
  destruct (os.parent (fs w) (boxrc.configPath s)) as [errno|] eqn:Hdir.
  { rewrite (bind_run _ _ _ _ _ _
               (Create_no_parent (logged w [EvStat (boxrc.configPath s)]) _ _ _ Hf Hdir)) in H.
    discriminate H. }
  rewrite (bind_run _ _ _ _ _ _
             (Create_absent (logged w [EvStat (boxrc.configPath s)]) _ _ Hf Hdir)) in H.
  cbv beta iota in H.
  apply defer_Done in H as (wc & H & ->).
  unfold os.Close, emit. cbn [snd fs].
  assert (Hover : descriptor_over s (fs w)
                    (<[boxrc.configPath s := RegularFile EmptyString (created_mode env)]> (fs w)))
    by now eexists _, _.
  apply bind_Done in H as ([path err] & wd & Hexec & H).
  rewrite execPath_run in Hexec. injection Hexec as _ <-.
  destruct err as [e|]; [discriminate|].
  apply bind_Done in H as (tpl & we & Htpl & H).
  match type of Htpl with boxrc.template s env ?W = _ => assert (we = W) as -> end.
  { unfold boxrc.template in Htpl.
    destruct (negb _) in Htpl; [|now injection Htpl].
    unfold bind, ask, ret, panic in Htpl.
    destruct (parses env _) in Htpl; [now injection Htpl | discriminate]. }
  apply bind_Done in H as (err & wf & Hexecute & H).
  apply (Execute_over (fs w)) in Hexecute; [|exact Hover].
  destruct err as [e|]; [discriminate|].
  apply bind_Done in H as (err & wg & Hchmod & H).
  apply (Chmod_over (fs w)) in Hchmod; [|exact Hexecute].
  destruct err as [e|]; [discriminate|].
  apply bind_Done in H as (err & wh & Hsymlink & H).
  destruct err as [e|]; [discriminate|].
  injection H as <-.
  fold (linkPath s) in Hsymlink. apply Symlink_done in Hsymlink as [Hfree ->].
  destruct Hchmod as (data & mode & Hm). rewrite Hm in Hfree |- *.
  rewrite lookup_insert_ne in Hfree by apply configPath_not_linkPath.
  split; [exact Hfree | now exists data, mode].
Qed.

(** Install, then uninstall: after an install that succeeded on a free
    config path, [Uninstall] succeeds and the files are again what they were
    before the install. *)
Theorem Install_Uninstall_round_trip w1 :
  boxrc.Install s env w = (Done None, w1) ->
  fs w !! boxrc.configPath s = None ->
  exists w2,
    boxrc.Uninstall s env w1 = (Done None, w2)
    /\ fs w2 = fs w
    /\ log w2 = (log w1 ++ [EvRemove (boxrc.configPath s); EvRemove (linkPath s)])%list.
Proof.
  intros H Hconf.
  destruct (Install_success_files _ H Hconf) as (Hlink & data & mode & Hfs).
  pose proof configPath_not_linkPath as Hne.
  eexists. split; [|split].
  - apply (proj2 (proj2 (Uninstall_cases_at w1)) (RegularFile data mode)
             (SymlinkTo (boxrc.configPath s))).
    + rewrite Hfs, lookup_insert_ne by (intros E; now apply Hne).
      apply lookup_insert_eq.
    + rewrite Hfs. apply lookup_insert_eq.
  - cbn [fs]. rewrite Hfs. apply map_eq. intros k.
    destruct (decide (k = linkPath s)) as [->|Hk1].
    + now rewrite lookup_delete_eq.
    + rewrite lookup_delete_ne by congruence.
      destruct (decide (k = boxrc.configPath s)) as [->|Hk2].
      * now rewrite lookup_delete_eq.
      * now rewrite lookup_delete_ne, !lookup_insert_ne by congruence.
  - reflexivity.
Qed.

End InstallEdges.


(** On a machine without the directories of boxrc the install fails at the
    create call. *)
Example Install_without_directories :
  boxrc.Install (svc None None) env0 (world_with_signals [])
  = (Done (Some (PathError "open" "/etc/boxinit.d/65svc" ENOENT)),
     logged (world_with_signals [])
       [EvStat "/etc/boxinit.d/65svc"; EvCreate "/etc/boxinit.d/65svc"]).
Proof. vm_compute. reflexivity. Qed.





Lemma Install_Uninstall_round_trip_witness :
  exists w2,
    boxrc.Uninstall (svc None None) env0 world_after_install = (Done None, w2)
    /\ fs w2 = fs world0
    /\ log w2 = (log world_after_install
                 ++ [EvRemove "/etc/boxinit.d/65svc"; EvRemove "/etc/boxrc.d/65svc"])%list.
Proof.
  apply (Install_Uninstall_round_trip (svc None None) env0 world0 world_after_install);
    vm_compute; reflexivity.
Defined.

(** ** The detection predicate *)

Section Detection.

Implicit Types (x y t sub pre mid post : string) (c : ascii).

Lemma IndexRune_app_none x y c :
  IndexRune (x +:+ y) c = -1 <-> IndexRune x c = -1 /\ IndexRune y c = -1.
Proof.
  induction x as [|b x IH]; simpl.
  - split; [now split | now intros [_ H]].
  - destruct (Ascii.eqb b c); [split; [discriminate | intros [H _]; discriminate]|].
    pose proof (IndexRune_ge (x +:+ y) c) as Hxy. pose proof (IndexRune_ge x c) as Hx.
    split; intros H.
    + assert (E : IndexRune (x +:+ y) c = -1)
        by (destruct (Z.ltb_spec (IndexRune (x +:+ y) c) 0); lia).
      apply IH in E as [E1 E2]. split; [now rewrite E1 | exact E2].
    + destruct H as [H1 H2].
      assert (E1 : IndexRune x c = -1) by (destruct (Z.ltb_spec (IndexRune x c) 0); lia).
      assert (E : IndexRune (x +:+ y) c = -1) by (apply IH; now split).
      now rewrite E.
Qed.

Lemma line_head_no_newline t : IndexRune (line_head t) "010"%char = -1.
Proof.
  induction t as [|b t IH]; [reflexivity|]. simpl.
  destruct (Ascii.eqb b "010"%char) eqn:E; [reflexivity|]. simpl. now rewrite E, IH.
Qed.

Lemma line_head_prefix t : exists rest, t = line_head t +:+ rest.
Proof.
  induction t as [|b t [rest IH]]; [now exists EmptyString|]. simpl.
  destruct (Ascii.eqb b "010"%char).
  - now exists (String b t).
  - exists rest. simpl. now rewrite <- IH.
Qed.

Lemma line_head_app x y :
  IndexRune x "010"%char = -1 -> line_head (x +:+ y) = x +:+ line_head y.
Proof.
  induction x as [|b x IH]; [reflexivity|]. simpl.
  destruct (Ascii.eqb b "010"%char); [discriminate|].
  intros H. rewrite IH; [reflexivity|].
  pose proof (IndexRune_ge x "010"%char).
  destruct (Z.ltb_spec (IndexRune x "010"%char) 0); lia.
Qed.

(** The rest of a line holds the word: the text is some bytes without a
    newline, the word, and anything. *)
Lemma Contains_line_head t sub :
  IndexRune sub "010"%char = -1 ->
  Contains (line_head t) sub = true
  <-> exists mid post, t = mid +:+ sub +:+ post /\ IndexRune mid "010"%char = -1.
Proof.
  intros Hsub. rewrite Contains_spec. split.
  - intros (a & b & H). destruct (line_head_prefix t) as [rest Ht].
    exists a, (b +:+ rest). split.
    + rewrite Ht at 1. now rewrite H, !app_assoc_s.
    + pose proof (line_head_no_newline t) as Hn. rewrite H in Hn.
      now apply IndexRune_app_none in Hn as [Hn _].
  - intros (mid & post & -> & Hmid).
    exists mid, (line_head post).
    rewrite line_head_app by exact Hmid. now rewrite line_head_app by exact Hsub.
Qed.

Lemma sysinit_matches_eq t :
  sysinit_matches t
  = (HasPrefix t "::sysinit:" && Contains (line_head (drop_bytes 10 t)) "boxrc.d")
    || match t with
       | EmptyString => false
       | String _ rest => sysinit_matches rest
       end.
Proof. destruct t; reflexivity. Qed.

(** The expression matches exactly the contents with a line in which
    ::sysinit: is followed, at any distance, by boxrc.d. *)
Lemma sysinit_matches_spec t :
  sysinit_matches t = true
  <-> exists pre mid post,
        t = pre +:+ "::sysinit:" +:+ mid +:+ "boxrc.d" +:+ post
        /\ IndexRune mid "010"%char = -1.
Proof.
  split.
  - induction t as [|b t IH]; rewrite sysinit_matches_eq, orb_true_iff, andb_true_iff.
    + intros [[H _] | H]; discriminate.
    + intros [[Hp Hc] | H].
      * apply HasPrefix_spec in Hp as [rest Hp]. rewrite Hp in Hc |- *.
        change (drop_bytes 10 ("::sysinit:" +:+ rest)) with rest in Hc.
        apply Contains_line_head in Hc as (mid & post & -> & Hmid); [|reflexivity].
        now exists EmptyString, mid, post.
      * destruct (IH H) as (pre & mid & post & -> & Hmid).
        now exists (String b pre), mid, post.
  - intros (pre & mid & post & -> & Hmid). induction pre as [|b pre IH].
    + rewrite sysinit_matches_eq, orb_true_iff, andb_true_iff. left. split.
      * apply HasPrefix_spec. now eexists.
      * change (drop_bytes 10 (EmptyString +:+ "::sysinit:" +:+ mid +:+ "boxrc.d" +:+ post))
          with (mid +:+ "boxrc.d" +:+ post).
        apply Contains_line_head; [reflexivity | now exists mid, post].
    + rewrite sysinit_matches_eq, orb_true_iff. right. exact IH.
Qed.

Variables (env : Env) (w : World).

(** [isBoxRC] returns and changes neither the files nor the signals; it
    answers true exactly when /etc/boxinit.d resolves to something that
    exists and /etc/inittab resolves to a regular file with a line in which
    ::sysinit: is followed by boxrc.d. *)
Theorem isBoxRC_detects :
  exists b w',
    isBoxRC env w = (Done b, w')
    /\ fs w' = fs w
    /\ signals w' = signals w
    /\ (b = true <->
        (exists q node, os.follow os.MAXSYMLINKS (fs w) "/etc/boxinit.d" = Some (q, Some node))
        /\ exists q data mode pre mid post,
             os.follow os.MAXSYMLINKS (fs w) "/etc/inittab"
               = Some (q, Some (RegularFile data mode))
             /\ data = pre +:+ "::sysinit:" +:+ mid +:+ "boxrc.d" +:+ post
             /\ IndexRune mid "010"%char = -1).
Proof.
  unfold isBoxRC.
  rewrite (bind_run _ _ _ _ _ _ (Stat_run env w "/etc/boxinit.d")).
  destruct (os.follow os.MAXSYMLINKS (fs w) "/etc/boxinit.d") as [[q0 [node0|]]|] eqn:Hd;
    cbv beta iota.
  2,3: eexists _, _; (split; [reflexivity|]); (split; [reflexivity|]); (split; [reflexivity|]);
       (split; [discriminate | intros [(q & node & H) _]; discriminate]).
  rewrite (bind_run _ _ _ _ _ _ (Stat_run env _ "/etc/inittab")).
  unfold logged at 1 2 3. cbn [fs].
  destruct (os.follow os.MAXSYMLINKS (fs w) "/etc/inittab") as [[q1 [node1|]]|] eqn:Hi;
    cbv beta iota.
  2,3: eexists _, _; (split; [reflexivity|]); (split; [reflexivity|]); (split; [reflexivity|]);
       (split; [discriminate | intros [_ (q & data & mode & pre & mid & post & H & _)];
                               discriminate]).
  unfold os_Open, bind at 1 2, get at 1. cbn [fs]. rewrite Hi. unfold ret at 1. cbv beta iota.
  unfold defer, Buffer_ReadFrom, bind, get, ret, os.Close, emit. cbn [fs log signals snd].
  destruct (follow_end _ _ _ _ _ Hi) as [Hq1 _]. rewrite Hq1.
  destruct node1 as [data mode|target|].
  - destruct (sysinit_matches data) eqn:Hm; eexists _, _;
      (split; [reflexivity|]); (split; [reflexivity|]); (split; [reflexivity|]).
    + split; [intros _ | reflexivity]. split; [now exists q0, node0|].
      apply sysinit_matches_spec in Hm as (pre & mid & post & Hdata & Hmid).
      now exists q1, data, mode, pre, mid, post.
    + split; [discriminate|].
      intros [_ (q & data' & mode' & pre & mid & post & H & Hdata & Hmid)].
      injection H as _ <- _.
      assert (sysinit_matches data = true)
        by (apply sysinit_matches_spec; now exists pre, mid, post).
      congruence.
  - eexists _, _; (split; [reflexivity|]); (split; [reflexivity|]); (split; [reflexivity|]).
    split; [discriminate | intros [_ (q & data & mode & pre & mid & post & H & _)]; discriminate].
  - eexists _, _; (split; [reflexivity|]); (split; [reflexivity|]); (split; [reflexivity|]).
    split; [discriminate | intros [_ (q & data & mode & pre & mid & post & H & _)]; discriminate].
Qed.

End Detection.

(** On a boxrc machine the backend is detected; without an inittab, or
    without the directory of the descriptors, it is not. *)
Example isBoxRC_examples :
  fst (isBoxRC env0 world_boxrc) = Done true
  /\ fst (isBoxRC env0 world_installed) = Done false
  /\ fst (isBoxRC env0 world0) = Done false
  /\ fst (isBoxRC env0 (world_with_signals [])) = Done false.
Proof. repeat split; vm_compute; reflexivity. Qed.

(** ** The generated script on an argument with a blank *)

Section BlankArgument.

Implicit Types (a acc rest : string) (c : ascii) (args : list string).









End BlankArgument.
